(** * Binaural sound experiment: a shallow embedding of [binaural_experiment.py]

    The script drives an EEG headset through a fixed protocol (rest / song
    periods), inserts markers in the acquisition stream, shows a live view
    of the signal and finally exports the session to a CSV and a FIF file.

    The Python code is effectful: it talks to the acquisition driver, the
    audio mixer, the clock, the logger and the file system, and it uses
    [try] / [except] / [finally].  The embedding is a state-and-exception
    monad whose state carries the trace of the calls made to the outside
    world, the files on disk and the one mutable attribute of the live
    view ([Graph.mains]). *)

From Stdlib Require Import ZArith QArith Lqa Lia Bool List Ascii String.
From Stdlib Require Import Decimal DecimalString.
From Stdlib Require DecimalNat DecimalFacts.
From stdpp Require Import base option list strings gmap.

Close Scope Q_scope.
Open Scope Z_scope.
Open Scope string_scope.
Open Scope list_scope.

(** ** Values *)

(** A two-dimensional numpy array of floats: [shape1] is [data.shape[1]]
    (the number of samples), [rows] the channels.  Floats are idealised as
    rationals.  A numpy array is rectangular: [wf_ndarray]. *)
Record ndarray := mk_ndarray { shape1 : nat; rows : list (list Q) }.

Definition wf_ndarray (a : ndarray) : Prop :=
  Forall (fun r => length r = shape1 a) (rows a).

(** Python exceptions, by class. *)
Inductive exn :=
| FileNotFoundError (msg : string)
| ValueError (msg : string)
| IndexError
| BrainFlowError
| pygame_error
| OverflowError (msg : string)
| OSError (msg : string).

Definition class_name (e : exn) : string :=
  match e with
  | FileNotFoundError _ => "FileNotFoundError"
  | ValueError _ => "ValueError"
  | IndexError => "IndexError"
  | BrainFlowError => "BrainFlowError"
  | pygame_error => "pygame.error"
  | OverflowError _ => "OverflowError"
  | OSError _ => "OSError"
  end.

Inductive level := DEBUG | INFO | ERROR.

(** One observable call to an external collaborator. *)
Inductive event :=
| EvMarker (code : Z)                       (* board_shim.insert_marker(code) *)
| EvSleep (d : Q)                           (* time.sleep(d) *)
| EvStatus (msg : string) (d : Z)           (* update_message carries (msg, d) *)
| EvFinished                                (* finished.emit() *)
| EvLog (l : level) (msg : string)          (* logging.debug / info / error *)
| EvMixerInit                               (* pygame.mixer.init() *)
| EvMusicLoad (path : string)               (* pygame.mixer.music.load(path) *)
| EvMusicPlay                               (* pygame.mixer.music.play() *)
| EvMusicStop                               (* pygame.mixer.music.stop() *)
| EvClose                                   (* QWidget.close() *)
| EvGetCurrentBoardData (n : Z)             (* get_current_board_data(n) *)
| EvGetBoardData                            (* get_board_data() *)
| EvDetectMains (data : ndarray)            (* enotools.detect_mains *)
| EvQuality (data : ndarray)                (* enotools.quality *)
| EvReferencing (data : ndarray) (mode : string)
| EvFiltering (data : ndarray) (filter_cut : Q) (bandpass : list Q)
              (bandstop : option (list Q))
| EvSetData (count : nat) (ys : list Q)     (* curves[count].setData *)
| EvSetText (count : nat) (name : string)   (* label.setText *)
| EvSetLabelTextColor (count : nat) (c : string).

(** A cell of a CSV row. *)
Inductive cell := CFloat (x : Q) | CStr (s : string) | CInt (n : Z).

(** [mne.create_info] and [mne.io.RawArray]. *)
Record mne_info := mk_info
  { ch_names : list string; sfreq : Z; ch_types : list string }.
Record mne_raw := mk_raw { raw_data : list (list Q); raw_info : mne_info }.

Inductive file :=
| CsvFile (lines : list (list cell))
| FifFile (raw : mne_raw).

(** ** External collaborators *)

(** The [enotools] conditioning library: pure functions of a snapshot.
    [detect_mains] returns a frequency band, never [None]. *)
Record Enotools := {
  detect_mains : ndarray -> list Q;
  quality : ndarray -> list Q;
  referencing : ndarray -> string -> ndarray;
  signal_filtering : ndarray -> Q -> list Q -> option (list Q) -> ndarray }.

(** The BrainFlow board.  The static layout queries are functions of the
    board id, which is fixed for a board object; the three methods that
    touch the stream answer from the history of the session. *)
Record BoardShim := {
  get_board_id : Z;
  get_eeg_channels : list nat;
  get_eeg_names : list string;
  get_sampling_rate : Z;
  get_marker_channel : nat;
  get_timestamp_channel : nat;
  (* does insert_marker(code) raise, the markers written so far being given *)
  insert_marker_raises : list Z -> Z -> bool;
  get_current_board_data : list event -> Z -> ndarray;
  get_board_data : list event -> ndarray }.

(** The rest of the environment: the file system, the audio mixer, the
    float formatting functions of the Python runtime and the platform's
    float-to-integer conversion. *)
Record Env := {
  os_path_exists : string -> bool;
  (* what open(name, 'w') raises, if anything: missing directory, rights, .. *)
  open_raises : string -> option exn;
  mixer_init_raises : bool;
  music_load_raises : string -> bool;
  music_play_raises : bool;
  music_stop_raises : bool;
  str_float : Q -> string;                   (* str(x) *)
  (* what datetime.fromtimestamp(ts) raises, if anything: a timestamp out
     of the range of the platform *)
  fromtimestamp_raises : Q -> option exn;
  strftime : Q -> string;                    (* fromtimestamp(ts).strftime(..) *)
  (* what a float whose integer part does not fit 64 bits is converted to *)
  astype_overflow : Q -> Z }.

(** ** The monad *)

Record state := mk_state {
  events : list event;
  disk : gmap string file;
  graph_mains : option (list Q)              (* Graph.mains; None at start *) }.

Inductive result (A : Type) := Ok (a : A) | Raise (e : exn).
Arguments Ok {A} a.
Arguments Raise {A} e.

Definition M (A : Type) : Type := state -> result A * state.

#[global] Instance M_ret : MRet M := fun A a s => (Ok a, s).
#[global] Instance M_bind : MBind M := fun A B f m s =>
  match m s with
  | (Ok a, s') => f a s'
  | (Raise e, s') => (Raise e, s')
  end.

Definition raise {A} (e : exn) : M A := fun s => (Raise e, s).

(** [try: body except Exception as e: handler e] *)
Definition try_except {A} (body : M A) (handler : exn -> M A) : M A :=
  fun s => match body s with
           | (Ok a, s') => (Ok a, s')
           | (Raise e, s') => handler e s'
           end.

(** [try: body finally: fin]: [fin] always runs; the outcome is that of
    [body] unless [fin] itself raises. *)
Definition try_finally {A} (body : M A) (fin : M unit) : M A :=
  fun s => match body s with
           | (r, s') => match fin s' with
                        | (Ok _, s'') => (r, s'')
                        | (Raise e, s'') => (Raise e, s'')
                        end
           end.

(** [for x in l: body x] *)
Fixpoint for_each {A} (l : list A) (body : A -> M unit) : M unit :=
  match l with
  | [] => mret tt
  | x :: l' => body x ;; for_each l' body
  end.

Definition emit (e : event) : M unit :=
  fun s => (Ok tt, mk_state (events s ++ [e]) (disk s) (graph_mains s)).

Definition get_events : M (list event) := fun s => (Ok (events s), s).

Definition markers_of (tr : list event) : list Z :=
  omap (fun e => match e with EvMarker c => Some c | _ => None end) tr.

(** ** Python runtime *)

(** [time.sleep(d)]: a negative length is a [ValueError]. *)
Definition time_sleep (d : Q) : M unit :=
  if Qle_bool 0 d then emit (EvSleep d)
  else raise (ValueError "sleep length must be non-negative").

Definition logging_debug (msg : string) : M unit := emit (EvLog DEBUG msg).
Definition logging_info (msg : string) : M unit := emit (EvLog INFO msg).
Definition logging_error (msg : string) : M unit := emit (EvLog ERROR msg).

(** [str(e)] *)
Definition str_exn (e : exn) : string :=
  match e with
  | FileNotFoundError m => m
  | ValueError m => m
  | OverflowError m => m
  | OSError m => m
  | e => class_name e
  end.

(** An argument that a PyQt signal declares as [int] is a C [int]: of the
    Python integer passed to [emit] the low 32 bits are kept and read in
    two's complement. *)
Definition c_int (z : Z) : Z := (z + 2 ^ 31) mod 2 ^ 32 - 2 ^ 31.

(** [f"{n}"] for a natural number. *)
Definition str_nat (n : nat) : string := NilZero.string_of_uint (Nat.to_uint n).

(** [f"{n:03d}"]: decimal, zero-padded to at least three characters. *)
Definition fmt_03d (n : nat) : string :=
  let s := str_nat n in
  string_of_list_ascii (repeat "0"%char (3 - String.length s)) +:+ s.

(** [range(n)] for a Python integer [n]: empty when [n <= 0]. *)
Definition range (n : Z) : list nat := seq 0 (Z.to_nat n).

(** [board_shim.insert_marker(code)] *)
Definition insert_marker (b : BoardShim) (code : Z) : M unit :=
  tr ← get_events;
  if insert_marker_raises b (markers_of tr) code then raise BrainFlowError
  else emit (EvMarker code).

(** ** Module-level configuration *)

Module G.
Record globals := {
relax_duration : Z;
song_duration : Z;
pause_duration : Z;
num_songs : Z;
song_directory : string;
sleep_time : Q }.

(** The values in the script. *)
Definition default : globals :=
{| relax_duration := 30; song_duration := 120; pause_duration := 30;
   num_songs := 5; song_directory := "./songs"; sleep_time := (1 # 2)%Q |}.
End G.

(** ** ExperimentWorker *)

Module ExperimentWorker.

(** The attributes stored by [__init__]. *)
Record t := {
board_shim : BoardShim;
relax_duration : Z;
song_duration : Z;
pause_duration : Z;
num_songs : Z;
sleep_time : Q;
song_directory : string }.

Definition __init__ (board_shim : BoardShim)
  (relax_duration song_duration pause_duration num_songs : Z)
  (sleep_time : Q) (song_directory : string) : t :=
{| board_shim := board_shim; relax_duration := relax_duration;
   song_duration := song_duration; pause_duration := pause_duration;
   num_songs := num_songs; sleep_time := sleep_time;
   song_directory := song_directory |}.

(** [update_message = pyqtSignal(str, int)]: the slot receives the
  duration as a C [int]. *)
Definition update_message_emit (msg : string) (d : Z) : M unit :=
emit (EvStatus msg (c_int d)).

Section Run.
Context (env : Env) (g : G.globals).

Definition play_song (self : t) (song_path : string) (duration : Z) : M unit :=
  try_except
((if mixer_init_raises env then raise pygame_error else emit EvMixerInit) ;;
 (if music_load_raises env song_path then raise pygame_error
  else emit (EvMusicLoad song_path)) ;;
 (if music_play_raises env then raise pygame_error else emit EvMusicPlay) ;;
 time_sleep (inject_Z duration) ;;
 (if music_stop_raises env then raise pygame_error else emit EvMusicStop))
(fun e => logging_error ("Error playing song: " +:+ str_exn e)).

Definition song_path_of (i : nat) : string :=
  G.song_directory g +:+ "/song" +:+ fmt_03d (i + 1) +:+ ".mp3".

(** The body of the [for] loop of [run]. *)
Definition song_step (self : t) (i : nat) : M unit :=
  let song_path := song_path_of i in
  (if negb (os_path_exists env song_path)
   then raise (FileNotFoundError ("Song file not found: " +:+ song_path))
   else mret tt) ;;
  update_message_emit ("Song " +:+ str_nat (i + 1)) (G.song_duration g) ;;
  insert_marker (board_shim self) 3 ;;
  logging_debug ("Inserted marker 3 (Start of song " +:+ str_nat (i + 1) +:+ ")") ;;
  play_song self song_path (G.song_duration g) ;;
  time_sleep (G.sleep_time g) ;;
  update_message_emit "Relax" (G.pause_duration g) ;;
  insert_marker (board_shim self) 1 ;;
  logging_debug "Inserted marker 1 (Start of relaxation)" ;;
  time_sleep (inject_Z (G.pause_duration g)) ;;
  time_sleep (G.sleep_time g).

(** The body of the [try] block of [run]. *)
Definition run_body (self : t) : M unit :=
  insert_marker (board_shim self) 5 ;;
  logging_debug "Inserted marker 5 (Start of experiment)" ;;
  time_sleep (G.sleep_time g) ;;
  update_message_emit "Relax with eyes closed" (G.relax_duration g) ;;
  insert_marker (board_shim self) 1 ;;
  logging_debug "Inserted marker 1 (Start of relaxation)" ;;
  time_sleep (inject_Z (G.relax_duration g)) ;;
  time_sleep (G.sleep_time g) ;;
  for_each (range (G.num_songs g)) (song_step self).

Definition run (self : t) : M unit :=
  try_finally
(try_except (run_body self)
   (fun e => logging_error ("Error in experiment: " +:+ str_exn e)))
(update_message_emit "Experiment Complete" 5 ;; emit EvFinished).

End Run.
End ExperimentWorker.

(** ** Array helpers *)

(** [data[i]] for a row index: out of range is an [IndexError]. *)
Definition getitem {A} (l : list A) (i : nat) : M A :=
  match l !! i with
  | Some x => mret x
  | None => raise IndexError
  end.

(** [[f(x) for x in l]] where [f] may raise. *)
Fixpoint map_M {A B} (f : A -> M B) (l : list A) : M (list B) :=
  match l with
  | [] => mret []
  | x :: l' => y ← f x; ys ← map_M f l'; mret (y :: ys)
  end.

(** The integer part of a float: truncation towards zero. *)
Definition trunc (x : Q) : Z := Z.quot (Qnum x) (Z.pos (Qden x)).

(** [x.astype(int)]: the conversion of a float to a 64-bit integer.  It
    truncates towards zero; when the integer part does not fit 64 bits the
    result is whatever the platform gives. *)
Definition astype_int (env : Env) (x : Q) : Z :=
  if ((- 2 ^ 63 <=? trunc x) && (trunc x <? 2 ^ 63))%Z then trunc x
  else astype_overflow env x.

(** One step of every iterator of a [zip]: [None] when one is exhausted. *)
Fixpoint heads_tails {A} (cols : list (list A)) : option (list A * list (list A)) :=
  match cols with
  | [] => Some ([], [])
  | [] :: _ => None
  | (x :: c) :: cols' =>
      match heads_tails cols' with
      | Some (hs, ts) => Some (x :: hs, c :: ts)
      | None => None
      end
  end.

(** [zip(first, *others)]: stops at the first exhausted iterator. *)
Fixpoint py_zip {A} (first : list A) (others : list (list A)) : list (list A) :=
  match first with
  | [] => []
  | x :: first' =>
      match heads_tails others with
      | Some (hs, ts) => (x :: hs) :: py_zip first' ts
      | None => []
      end
  end.

(** [enumerate(l)] *)
Definition enumerate {A} (l : list A) : list (nat * A) :=
  combine (seq 0 (length l)) l.

(** ** Graph: the live view *)

Module Graph.

Record t := {
board_id : Z;
board_shim : BoardShim;
subject_id : string;
exg_channels : list nat;
sampling_rate : Z;
update_speed_ms : Z;
window_size : Z;
num_points : Z;
plot_names : list string }.

(** [__init__] without the widget set-up; [self.mains = None] is the
  initial [graph_mains] of the state. *)
Definition __init__ (board_shim : BoardShim) (subject_id : string) : t :=
{| board_id := get_board_id board_shim;
   board_shim := board_shim;
   subject_id := subject_id;
   exg_channels := get_eeg_channels board_shim;
   sampling_rate := get_sampling_rate board_shim;
   update_speed_ms := 50;
   window_size := 10;
   num_points := 10 * get_sampling_rate board_shim;
   plot_names := ["Quality A2"; "Quality A1"; "Quality C4"; "Quality C3"] |}.

Definition get_mains : M (option (list Q)) := fun s => (Ok (graph_mains s), s).
Definition set_mains (m : list Q) : M unit :=
fun s => (Ok tt, mk_state (events s) (disk s) (Some m)).

Section Update.
Context (env : Env) (eno : Enotools).

(** The body of the [for count, channel in enumerate(...)] loop. *)
Definition show_channel (self : t) (quality : list Q) (data : ndarray)
(cc : nat * nat) : M unit :=
  let '(count, channel) := cc in
  pn ← getitem (plot_names self) count;
  q ← getitem quality count;
  let name := pn +:+ ": " +:+ str_float env q in
  row ← getitem (rows data) channel;
  emit (EvSetData count row) ;;
  emit (EvSetText count name) ;;
  if Qle_bool 99 q then emit (EvSetLabelTextColor count "g")
  else if Qle_bool 95 q then emit (EvSetLabelTextColor count "y")
  else emit (EvSetLabelTextColor count "r").

Definition update (self : t) : M unit :=
  tr ← get_events;
  let data := get_current_board_data (board_shim self) tr (num_points self) in
  emit (EvGetCurrentBoardData (num_points self)) ;;
  if Z.of_nat (shape1 data) >? 3 * sampling_rate self then
m ← get_mains;
(match m with
 | None => emit (EvDetectMains data) ;; set_mains (detect_mains eno data)
 | Some _ => mret tt
 end) ;;
emit (EvQuality data) ;;
let quality := quality eno data in
emit (EvReferencing data "mastoid") ;;
let data1 := referencing eno data "mastoid" in
m' ← get_mains;
emit (EvFiltering data1 (250 # 1) [(3 # 1)%Q; (40 # 1)%Q] m') ;;
let data2 := signal_filtering eno data1 (250 # 1) [(3 # 1)%Q; (40 # 1)%Q] m' in
for_each (enumerate (exg_channels self)) (show_channel self quality data2)
  else mret tt.

(** One timer tick: an exception of [update] does not stop the timer. *)
Definition tick (self : t) : M unit :=
  try_except (update self) (fun _ => mret tt).

(** [n] ticks of the timer. *)
Fixpoint ticks (self : t) (n : nat) : M unit :=
  match n with
  | O => mret tt
  | S n' => tick self ;; ticks self n'
  end.
End Update.
End Graph.

(** ** ExperimentWindow: the protocol window and the finalization *)

Module ExperimentWindow.

Record t := {
board_shim : BoardShim;
subject_id : string;
worker : ExperimentWorker.t }.

(** The worker is built from the module-level configuration. *)
Definition __init__ (g : G.globals) (board_shim : BoardShim) (subject_id : string) : t :=
{| board_shim := board_shim;
   subject_id := subject_id;
   worker := ExperimentWorker.__init__ board_shim
               (G.relax_duration g) (G.song_duration g) (G.pause_duration g)
               (G.num_songs g) (G.sleep_time g) (G.song_directory g) |}.

Definition output_csv_filename (self : t) : string :=
subject_id self +:+ "_eeg_data.csv".
Definition output_fif_filename (self : t) : string :=
subject_id self +:+ "_eeg_data.raw.fif".

(** [open(name, 'w')] followed by the writes: the file is created, or
  replaced, unless it cannot be opened. *)
Definition write_file (env : Env) (name : string) (f : file) : M unit :=
match open_raises env name with
| Some e => raise e
| None => fun s => (Ok tt, mk_state (events s) (<[name := f]> (disk s)) (graph_mains s))
end.

(** [datetime.datetime.fromtimestamp(ts).strftime(..)] *)
Definition fromtimestamp_strftime (env : Env) (ts : Q) : M string :=
match fromtimestamp_raises env ts with
| Some e => raise e
| None => mret (strftime env ts)
end.

(** [mne.create_info]: a positive sampling rate, one type per channel name. *)
Definition create_info (ch_names : list string) (sfreq : Z) (ch_types : list string)
  : M mne_info :=
if (sfreq <=? 0)%Z then raise (ValueError "sfreq must be positive")
else if Nat.eqb (length ch_names) (length ch_types)
then mret (mk_info ch_names sfreq ch_types)
else raise (ValueError "ch_types and ch_names must be the same length").

(** The number of samples of a recording. *)
Definition n_times (raw : mne_raw) : nat := length (hd [] (raw_data raw)).

(** [raw.save(name, overwrite=True)]: a recording without samples is
  refused before the file is opened. *)
Definition save (env : Env) (raw : mne_raw) (name : string) : M unit :=
if Nat.eqb (n_times raw) 0
then raise (ValueError "tmin (0) and tmax (None) yielded no samples")
else write_file env name (FifFile raw).

(** [mne.io.RawArray]: one row of data per channel of [info]. *)
Definition RawArray (data : list (list Q)) (info : mne_info) : M mne_raw :=
if Nat.eqb (length data) (length (ch_names info))
then mret (mk_raw data info)
else raise (ValueError "len(data) does not match the number of channels").

(** [np.vstack([a, v])] for a matrix [a] and a vector [v]. *)
Definition vstack (a : list (list Q)) (v : list Q) : M (list (list Q)) :=
if forallb (fun r => Nat.eqb (length r) (length v)) a
then mret (a ++ [v])%list
else raise (ValueError "all the input array dimensions must match").

Section Finish.
Context (env : Env) (eno : Enotools) (g : G.globals).
Context (str_array : list Q -> string).

Definition header (self : t) : list cell :=
  ([CStr "Unix Timestamp"; CStr "Human Readable Timestamp"]
   ++ map (fun ch => CStr ("EEG Channel " +:+ str_nat ch))
      (get_eeg_channels (board_shim self))
   ++ [CStr "Marker"])%list.

Definition experiment_finished (self : t) : M unit :=
  let b := board_shim self in
  insert_marker b 6 ;;
  logging_debug "Inserted marker 6 (End of experiment)" ;;
  time_sleep (G.sleep_time g) ;;
  emit EvClose ;;
  tr ← get_events;
  let data := get_board_data b tr in
  emit EvGetBoardData ;;
  emit (EvDetectMains data) ;;
  let mains := detect_mains eno data in
  emit (EvReferencing data "mastoid") ;;
  let data := referencing eno data "mastoid" in
  emit (EvFiltering data (250 # 1) [(1 # 10)%Q; (45 # 1)%Q] (Some mains)) ;;
  let data := signal_filtering eno data (250 # 1) [(1 # 10)%Q; (45 # 1)%Q] (Some mains) in
  markers ← getitem (rows data) (get_marker_channel b);
  logging_debug ("Markers retrieved: " +:+ str_array markers) ;;
  timestamps ← getitem (rows data) (get_timestamp_channel b);
  markers ← getitem (rows data) (get_marker_channel b);
  let markers := map (astype_int env) markers in
  human_readable_timestamps ← map_M (fromtimestamp_strftime env) timestamps;
  eeg_data ← map_M (getitem (rows data)) (get_eeg_channels b);
  let combined_data :=
py_zip (map CFloat timestamps)
       ([map CStr human_readable_timestamps]
        ++ map (map CFloat) eeg_data ++ [map CInt markers])%list in
  write_file env (output_csv_filename self) (CsvFile (header self :: combined_data)) ;;
  logging_info "Experiment finished and data saved to <subjectID>_eeg_data.csv" ;;
  let eeg_channels := get_eeg_channels b in
  let stim_channel := get_marker_channel b in
  sel ← map_M (getitem (rows data)) eeg_channels;
  let mne_eeg_data := map (map (fun v => (v / (1000000 # 1))%Q)) sel in
  marker_data ← getitem (rows data) stim_channel;
  combined_data ← vstack mne_eeg_data marker_data;
  let ch_types := (repeat "eeg" (length eeg_channels) ++ ["stim"])%list in
  let ch_names := (get_eeg_names b ++ ["stim"])%list in
  let sfreq := get_sampling_rate b in
  info ← create_info ch_names sfreq ch_types;
  raw ← RawArray combined_data info;
  save env raw (output_fif_filename self).

Definition show_message (self : t) (message : string) (duration : Z) : M unit :=
  emit (EvSetText 0 message).

(** Delivery of one signal of the worker to the slot connected to it. *)
Definition deliver (self : t) (e : event) : M unit :=
  match e with
  | EvStatus message duration => show_message self message duration
  | EvFinished => experiment_finished self
  | _ => mret tt
  end.

(** [run_experiment]: the worker thread runs [run]; the signals it
emitted are then delivered, in order, to the connected slots. *)
Definition run_experiment (self : t) : M unit :=
  tr0 ← get_events;
  ExperimentWorker.run env g (worker self) ;;
  tr1 ← get_events;
  for_each (drop (length tr0) tr1) (deliver self).
End Finish.
End ExperimentWindow.

(** ** Observations on traces *)

(** The state after some more events. *)
Definition add_events (s : state) (tr : list event) : state :=
  mk_state (events s ++ tr) (disk s) (graph_mains s).

(** The events added between two states of one execution. *)
Definition new_events (s0 s1 : state) : list event :=
  drop (length (events s0)) (events s1).

Fixpoint count_if (p : event -> bool) (tr : list event) : nat :=
  match tr with
  | [] => O
  | e :: tr' => ((if p e then 1 else 0) + count_if p tr')%nat
  end.

(** The "stimulus" status events are the ["Song i"] messages, the "relax"
    ones the two messages that start with ["Relax"]. *)
Definition is_stimulus_status (e : event) : bool :=
  match e with EvStatus msg _ => String.prefix "Song " msg | _ => false end.
Definition is_relax_status (e : event) : bool :=
  match e with EvStatus msg _ => String.prefix "Relax" msg | _ => false end.
Definition is_complete_status (e : event) : bool :=
  match e with EvStatus msg _ => String.eqb msg "Experiment Complete" | _ => false end.
Definition is_finished (e : event) : bool :=
  match e with EvFinished => true | _ => false end.
Definition is_detect_mains (e : event) : bool :=
  match e with EvDetectMains _ => true | _ => false end.

(** The calls to the conditioning library, by name, in call order. *)
Definition conditioning_calls (tr : list event) : list string :=
  omap (fun e => match e with
                 | EvDetectMains _ => Some "detect_mains"
                 | EvQuality _ => Some "quality"
                 | EvReferencing _ _ => Some "referencing"
                 | EvFiltering _ _ _ _ => Some "signal_filtering"
                 | _ => None
                 end) tr.

(** The nominal clock: the time waited so far, the waits being the only
    operations that take time. *)
Definition clock_after (now : Q) (tr : list event) : Q :=
  fold_left (fun t e => match e with EvSleep d => (t + d)%Q | _ => t end) tr now.

(** Every marker written, with the clock at the write. *)
Fixpoint marker_times (now : Q) (tr : list event) : list (Q * Z) :=
  match tr with
  | [] => []
  | EvMarker c :: tr' => (now, c) :: marker_times now tr'
  | EvSleep d :: tr' => marker_times (now + d)%Q tr'
  | _ :: tr' => marker_times now tr'
  end.

(** [R] holds of every two neighbours of a list. *)
Fixpoint adjacent {A} (R : A -> A -> Prop) (l : list A) : Prop :=
  match l with
  | a :: l' => match l' with b :: _ => R a b | [] => True end /\ adjacent R l'
  | [] => True
  end.

(** The marker sequence of a protocol with [n] songs, end marker left out. *)
Definition protocol_markers (n : nat) : list Z :=
  5 :: 1 :: concat (repeat [3; 1] n).

(** What [play_song] adds to the trace. *)
Definition play_trace (env : Env) (self : ExperimentWorker.t) (path : string) (d : Z)
    : list event :=
  events (snd (ExperimentWorker.play_song env self path d (mk_state [] ∅ None))).

(** What one exception-free turn of the loop of [run] adds to the trace. *)
Definition song_trace (env : Env) (g : G.globals) (self : ExperimentWorker.t) (i : nat)
    : list event :=
  [EvStatus ("Song " +:+ str_nat (i + 1)) (c_int (G.song_duration g));
   EvMarker 3;
   EvLog DEBUG ("Inserted marker 3 (Start of song " +:+ str_nat (i + 1) +:+ ")")]
  ++ play_trace env self (ExperimentWorker.song_path_of g i) (G.song_duration g)
  ++ [EvSleep (G.sleep_time g);
      EvStatus "Relax" (c_int (G.pause_duration g));
      EvMarker 1;
      EvLog DEBUG "Inserted marker 1 (Start of relaxation)";
      EvSleep (inject_Z (G.pause_duration g));
      EvSleep (G.sleep_time g)].

(** What the part of [run] before the loop adds to the trace. *)
Definition prelude_trace (g : G.globals) : list event :=
  [EvMarker 5;
   EvLog DEBUG "Inserted marker 5 (Start of experiment)";
   EvSleep (G.sleep_time g);
   EvStatus "Relax with eyes closed" (c_int (G.relax_duration g));
   EvMarker 1;
   EvLog DEBUG "Inserted marker 1 (Start of relaxation)";
   EvSleep (inject_Z (G.relax_duration g));
   EvSleep (G.sleep_time g)].

(** ** Vocabulary of the proofs *)

(** The driver accepts every marker. *)
Definition driver_accepts (b : BoardShim) : Prop :=
  forall hist code, insert_marker_raises b hist code = false.

(** What the exception-free turns of the loop for the songs [l] add. *)
Definition songs_trace (env : Env) (g : G.globals) (self : ExperimentWorker.t)
    (l : list nat) : list event :=
  concat (map (song_trace env g self) l).

(** Whatever its outcome, [m] adds to the trace only events that satisfy [P]. *)
Definition emits_only {A} (P : event -> Prop) (m : M A) : Prop :=
  forall s, exists tr, events (snd (m s)) = (events s ++ tr)%list /\ Forall P tr.

(** The events a worker may emit before its [finally] block. *)
Definition before_completion (e : event) : Prop :=
  is_complete_status e = false /\ is_finished e = false.

(** An event that is neither a marker nor a signal of the worker, and that
    does not turn the clock back. *)
Definition quiet (e : event) : Prop :=
  match e with
  | EvMarker _ | EvStatus _ _ | EvFinished => False
  | EvSleep d => (0 <= d)%Q
  | _ => True
  end.

(** Every marker of [tr] is written at least [st] after the one before it;
    [last] is the time of the last marker written before [tr]. *)
Fixpoint spaced (st last now : Q) (tr : list event) : Prop :=
  match tr with
  | [] => True
  | EvMarker _ :: tr' => (last + st <= now)%Q /\ spaced st now now tr'
  | EvSleep d :: tr' => spaced st last (now + d)%Q tr'
  | _ :: tr' => spaced st last now tr'
  end.

(** What the status slot shows for the signals of a trace. *)
Definition shown (tr : list event) : list event :=
  omap (fun e => match e with EvStatus m _ => Some (EvSetText 0 m) | _ => None end) tr.

(** The line the handler of [run] logs. *)
Definition error_log (r : result unit) : list event :=
  match r with
  | Ok _ => []
  | Raise e => [EvLog ERROR ("Error in experiment: " +:+ str_exn e)]
  end.

Definition raises_only {A} (Q : exn -> Prop) (m : M A) : Prop :=
  forall s e, fst (m s) = Raise e -> Q e.

(** Anything but a missing asset. *)
Definition not_missing_asset (e : exn) : Prop :=
  match e with FileNotFoundError _ => False | _ => True end.

(** An action that touches neither the disk nor [Graph.mains]. *)
Definition keeps_store {A} (m : M A) : Prop :=
  forall s, disk (snd (m s)) = disk s /\ graph_mains (snd (m s)) = graph_mains s.

(** A call to the plotting widgets. *)
Definition display_event (e : event) : Prop :=
  match e with
  | EvSetData _ _ | EvSetText _ _ | EvSetLabelTextColor _ _ => True
  | _ => False
  end.

(** A filtering call, if it is one, uses the band-stop range [m]. *)
Definition filters_with (m : list Q) (e : event) : Prop :=
  match e with EvFiltering _ _ _ bs => bs = Some m | _ => True end.

(** The snapshot a tick pulls in state [s], and whether it is long enough. *)
Definition pulled (self : Graph.t) (s : state) : ndarray :=
  get_current_board_data (Graph.board_shim self) (events s) (Graph.num_points self).
Definition enough (self : Graph.t) (s : state) : bool :=
  Z.of_nat (shape1 (pulled self s)) >? 3 * Graph.sampling_rate self.

(** The band-stop range in use after a tick that conditions. *)
Definition mains_after (eno : Enotools) (self : Graph.t) (s : state) : list Q :=
  match graph_mains s with Some m => m | None => detect_mains eno (pulled self s) end.

(** The conditioning part of the trace of such a tick. *)
Definition conditioning_trace (eno : Enotools) (self : Graph.t) (s : state)
    : list event :=
  match graph_mains s with None => [EvDetectMains (pulled self s)] | Some _ => [] end
  ++ [EvQuality (pulled self s);
      EvReferencing (pulled self s) "mastoid";
      EvFiltering (referencing eno (pulled self s) "mastoid") (250 # 1)
        [(3 # 1)%Q; (40 # 1)%Q] (Some (mains_after eno self s))].

(** The buffer finalization exports: the whole recording, re-referenced and
    filtered.  [s] is the state in which [experiment_finished] is called. *)
Definition finalized_buffer (eno : Enotools) (g : G.globals) (b : BoardShim)
    (s : state) : ndarray :=
  let tr := events s ++ [EvMarker 6;
                         EvLog DEBUG "Inserted marker 6 (End of experiment)";
                         EvSleep (G.sleep_time g);
                         EvClose] in
  let data := get_board_data b tr in
  let mains := detect_mains eno data in
  signal_filtering eno (referencing eno data "mastoid") (250 # 1)
    [(1 # 10)%Q; (45 # 1)%Q] (Some mains).

(** [data[i][j]] *)
Definition sample (data : ndarray) (i j : nat) : Q :=
  nth j (nth i (rows data) []) 0%Q.

(** The CSV row of sample [j]. *)
Definition csv_row (env : Env) (b : BoardShim) (data : ndarray) (j : nat) : list cell :=
  [CFloat (sample data (get_timestamp_channel b) j);
   CStr (strftime env (sample data (get_timestamp_channel b) j))]
  ++ map (fun ch => CFloat (sample data ch j)) (get_eeg_channels b)
  ++ [CInt (astype_int env (sample data (get_marker_channel b) j))].

(** All the channels finalization reads are rows of the buffer. *)
Definition channels_present (b : BoardShim) (data : ndarray) : Prop :=
  (get_marker_channel b < length (rows data))%nat
  /\ (get_timestamp_channel b < length (rows data))%nat
  /\ Forall (fun ch => (ch < length (rows data))%nat) (get_eeg_channels b).

(** An action that leaves the file [name] as it is. *)
Definition keeps_file {A} (name : string) (m : M A) : Prop :=
  forall s, disk (snd (m s)) !! name = disk s !! name.

(** What finalization adds to the trace before it reads the channels. *)
Definition pre_export_trace (eno : Enotools) (g : G.globals) (b : BoardShim)
    (s : state) : list event :=
  let tr := [EvMarker 6;
             EvLog DEBUG "Inserted marker 6 (End of experiment)";
             EvSleep (G.sleep_time g);
             EvClose] in
  let data := get_board_data b (events s ++ tr) in
  tr ++ [EvGetBoardData;
         EvDetectMains data;
         EvReferencing data "mastoid";
         EvFiltering (referencing eno data "mastoid") (250 # 1)
           [(1 # 10)%Q; (45 # 1)%Q] (Some (detect_mains eno data))].

(** The rows of the structured export: the EEG channels in volts, then the
    marker channel. *)
Definition fif_rows (b : BoardShim) (data : ndarray) : list (list Q) :=
  map (fun ch => map (fun v => (v / (1000000 # 1))%Q) (nth ch (rows data) []))
      (get_eeg_channels b)
  ++ [nth (get_marker_channel b) (rows data) []].

Definition fif_info (b : BoardShim) : mne_info :=
  mk_info (get_eeg_names b ++ ["stim"]) (get_sampling_rate b)
          (repeat "eeg" (length (get_eeg_channels b)) ++ ["stim"]).

#[global] Instance channels_present_dec b data : Decision (channels_present b data).
Proof. unfold channels_present. apply _. Defined.

(** Every timestamp of a row can be turned into a date. *)
Definition formattable (env : Env) (timestamps : list Q) : Prop :=
  Forall (fun ts => fromtimestamp_raises env ts = None) timestamps.

#[global] Instance formattable_dec env timestamps : Decision (formattable env timestamps).
Proof.
  unfold formattable. apply Forall_dec. intros ts.
  destruct (fromtimestamp_raises env ts); [right; discriminate|left; reflexivity].
Defined.

(** What the export relies on: the marker row, the timestamp row and the
    EEG rows are rows of the buffer, and the first two are as long as each
    EEG row. *)
Definition export_integrity (b : BoardShim) (data : ndarray) : Prop :=
  channels_present b data
  /\ Forall (fun ch =>
               length (nth (get_marker_channel b) (rows data) [])
               = length (nth ch (rows data) [])
               /\ length (nth (get_timestamp_channel b) (rows data) [])
                  = length (nth ch (rows data) []))
            (get_eeg_channels b).

(** The state of finalization once the CSV file is written: [s] is the
    state in which [experiment_finished] is called. *)
Definition after_csv (env : Env) (eno : Enotools) (g : G.globals)
    (str_array : list Q -> string) (w : ExperimentWindow.t) (s : state) : state :=
  let b := ExperimentWindow.board_shim w in
  let data := finalized_buffer eno g b s in
  mk_state
    (events s ++ pre_export_trace eno g b s
     ++ [EvLog DEBUG ("Markers retrieved: "
                      +:+ str_array (nth (get_marker_channel b) (rows data) []));
         EvLog INFO "Experiment finished and data saved to <subjectID>_eeg_data.csv"])
    (<[ExperimentWindow.output_csv_filename w :=
         CsvFile (ExperimentWindow.header w
                  :: map (csv_row env b data) (seq 0 (shape1 data)))]> (disk s))
    (graph_mains s).

(** ** The log file *)

(** [logging.basicConfig(filename='experiment.log', level=logging.DEBUG)]:
    every logging call of the script appends a line to this file.  The
    lines appended so far are the [EvLog] events of the trace, in order. *)
Definition log_filename : string := "experiment.log".

Definition log_lines (tr : list event) : list (level * string) :=
  omap (fun e => match e with EvLog l m => Some (l, m) | _ => None end) tr.

(** What a file of the working directory holds: an export, or for the log
    file the lines logged. *)
Inductive content := Export (f : file) | Log (lines : list (level * string)).

Definition read_file (s : state) (name : string) : option content :=
  if decide (name = log_filename) then Some (Log (log_lines (events s)))
  else Export <$> disk s !! name.

(** The file in which the acquisition driver keeps its own log; it is set
    by [main] and written by the driver, not by the script. *)
Definition driver_log_filename : string := "brainflow.log".

(** The lines finalization may log. *)
Definition finalization_log (e : event) : Prop :=
  match e with
  | EvLog DEBUG m =>
      m = "Inserted marker 6 (End of experiment)"
      \/ String.prefix "Markers retrieved: " m = true
  | EvLog INFO m =>
      m = "Experiment finished and data saved to <subjectID>_eeg_data.csv"
  | EvLog ERROR _ => False
  | _ => True
  end.

(** * Concrete sessions *)

Module Example.
(** Every song is there and the mixer works. *)
Definition env : Env :=
{| os_path_exists := fun _ => true;
   open_raises := fun _ => None;
   mixer_init_raises := false;
   music_load_raises := fun _ => false;
   music_play_raises := false;
   music_stop_raises := false;
   str_float := fun _ => "100.0";
   fromtimestamp_raises := fun _ => None;
   strftime := fun _ => "1970-01-01 00:00:00.000000";
   astype_overflow := fun _ => - 2 ^ 63 |}.

(** The second song is missing. *)
Definition env_missing : Env :=
{| os_path_exists := fun p => negb (String.eqb p "./songs/song002.mp3");
   open_raises := fun _ => None;
   mixer_init_raises := false;
   music_load_raises := fun _ => false;
   music_play_raises := false;
   music_stop_raises := false;
   str_float := fun _ => "100.0";
   fromtimestamp_raises := fun _ => None;
   strftime := fun _ => "1970-01-01 00:00:00.000000";
   astype_overflow := fun _ => - 2 ^ 63 |}.

(** A conditioning library that leaves the signal as it is. *)
Definition eno : Enotools :=
{| detect_mains := fun _ => [(50 # 1)%Q; (100 # 1)%Q];
   quality := fun _ => [(100 # 1)%Q; (100 # 1)%Q; (96 # 1)%Q; (10 # 1)%Q];
   referencing := fun d _ => d;
   signal_filtering := fun d _ _ _ => d |}.

Definition str_array (_ : list Q) : string := "[...]".

(** A buffer of seven channels and [n] samples. *)
Definition buffer (n : nat) : ndarray := mk_ndarray n (repeat (repeat 0%Q n) 7).

(** A board with four EEG channels whose buffer holds [n] samples. *)
Definition board (n : nat) : BoardShim :=
{| get_board_id := 37;
   get_eeg_channels := [1; 2; 3; 4]%nat;
   get_eeg_names := ["A2"; "A1"; "C4"; "C3"];
   get_sampling_rate := 250;
   get_marker_channel := 6;
   get_timestamp_channel := 5;
   insert_marker_raises := fun _ _ => false;
   get_current_board_data := fun _ _ => buffer n;
   get_board_data := fun _ => buffer n |}.

(** The same board, but whose marker channel is not a row of the buffer. *)
Definition board_without_marker_row (n : nat) : BoardShim :=
{| get_board_id := 37;
   get_eeg_channels := [1; 2; 3; 4]%nat;
   get_eeg_names := ["A2"; "A1"; "C4"; "C3"];
   get_sampling_rate := 250;
   get_marker_channel := 9;
   get_timestamp_channel := 5;
   insert_marker_raises := fun _ _ => false;
   get_current_board_data := fun _ _ => buffer n;
   get_board_data := fun _ => buffer n |}.

(** A short protocol: two songs. *)
Definition g : G.globals :=
{| G.relax_duration := 1; G.song_duration := 2; G.pause_duration := 1;
   G.num_songs := 2; G.song_directory := "./songs"; G.sleep_time := (1 # 2)%Q |}.

Definition s0 : state := mk_state [] ∅ None.

Definition window : ExperimentWindow.t := ExperimentWindow.__init__ g (board 3) "S01".
Definition window_without_marker_row : ExperimentWindow.t :=
ExperimentWindow.__init__ g (board_without_marker_row 3) "S01".
End Example.

(** ** More observations *)

(** The status signals of a trace, in emission order. *)
Definition statuses_of (tr : list event) : list (string * Z) :=
  omap (fun e => match e with EvStatus m d => Some (m, d) | _ => None end) tr.

(** The status signals of a protocol that runs to its end. *)
Definition protocol_statuses (g : G.globals) : list (string * Z) :=
  ("Relax with eyes closed", c_int (G.relax_duration g))
  :: concat (map (fun i => [("Song " +:+ str_nat (i + 1), c_int (G.song_duration g));
                            ("Relax", c_int (G.pause_duration g))])
                 (range (G.num_songs g)))
  ++ [("Experiment Complete", 5)].

(** Reading a decimal number back, leading zeros allowed. *)
Definition parse_nat (s : string) : option nat :=
  option_map Nat.of_uint (NilEmpty.uint_of_string s).

(** The waits of a trace, in order. *)
Definition waits_of (tr : list event) : list Q :=
  omap (fun e => match e with EvSleep d => Some d | _ => None end) tr.

(** The waits of a protocol that runs to its end with a working mixer. *)
Definition protocol_waits (g : G.globals) : list Q :=
  [G.sleep_time g; inject_Z (G.relax_duration g); G.sleep_time g]
  ++ concat (repeat [inject_Z (G.song_duration g); G.sleep_time g;
                     inject_Z (G.pause_duration g); G.sleep_time g]
                    (Z.to_nat (G.num_songs g))).

(** The mixer fails before [play_song] starts to wait. *)
Definition mixer_fails (env : Env) (path : string) : bool :=
  mixer_init_raises env || music_load_raises env path || music_play_raises env.

(** ** The legends of the live view *)

(** The colour of a legend: green from 99, yellow from 95, red below. *)
Definition legend_colour (q : Q) : string :=
  if Qle_bool 99 q then "g" else if Qle_bool 95 q then "y" else "r".

(** What [update] shows for the channel [channel], the [count]-th one. *)
Definition channel_display (env : Env) (self : Graph.t) (quality : list Q)
    (data : ndarray) (cc : nat * nat) : list event :=
  let '(count, channel) := cc in
  [EvSetData count (nth channel (rows data) []);
   EvSetText count (nth count (Graph.plot_names self) "" +:+ ": "
                    +:+ str_float env (nth count quality 0%Q));
   EvSetLabelTextColor count (legend_colour (nth count quality 0%Q))].

(** The buffer [update] displays: the snapshot, re-referenced and filtered. *)
Definition displayed (eno : Enotools) (self : Graph.t) (s : state) : ndarray :=
  signal_filtering eno (referencing eno (pulled self s) "mastoid") (250 # 1)
    [(3 # 1)%Q; (40 # 1)%Q] (Some (mains_after eno self s)).

(** ** The widgets of the live view *)

Module GraphWidgets.

(** The three lists [_init_timeseries] fills.  A plot is known by its row,
  a curve by its name, a legend by the row of its plot. *)
Record t := mk { plots : list nat; curves : list string; legends : list nat }.

(** One turn of the loop: the plot is appended before its curve is named. *)
Definition add_row (plot_names : list string) (ts : t) (i : nat) : result unit * t :=
let ts1 := mk (plots ts ++ [i]) (curves ts) (legends ts) in
match plot_names !! i with
| Some name => (Ok tt, mk (plots ts1) (curves ts1 ++ [name]) (legends ts1 ++ [i]))
| None => (Raise IndexError, ts1)
end.

Fixpoint loop (plot_names : list string) (rows : list nat) (ts : t) : result unit * t :=
match rows with
| [] => (Ok tt, ts)
| i :: rows' =>
    match add_row plot_names ts i with
    | (Ok _, ts') => loop plot_names rows' ts'
    | (Raise e, ts') => (Raise e, ts')
    end
end.

(** [for i in range(len(self.exg_channels))], from three empty lists. *)
Definition _init_timeseries (self : Graph.t) : result unit * t :=
loop (Graph.plot_names self) (seq 0 (length (Graph.exg_channels self))) (mk [] [] []).

End GraphWidgets.

(** ** The entry point *)

Module Main.

(** The calls [main] makes, in the order of the script. *)
Inductive call :=
| SetUpLogging | ParseArgs | NewBoardShim | PrepareSession | StartStream
| NewQApplication | NewGraph | GraphShow | AppExec | StopStream | ReleaseSession
| PrintError | SysExit (code : Z).

#[global] Instance call_eq_dec : EqDecision call.
Proof. solve_decision. Defined.

(** How the process ends. *)
Inductive outcome := Return | Exit (code : Z) | Uncaught (e : exn).

(** What the outside world answers: [argparse] exits with status 2 on a bad
  command line; each of the other calls may raise. *)
Record world := {
parse_args_exits : bool;
board_shim_raises : option exn;
prepare_session_raises : option exn;
start_stream_raises : option exn;
graph_raises : option exn;
app_exec_raises : option exn;
stop_stream_raises : option exn;
release_session_raises : option exn }.

(** The calls of the [try] block, each with what it raises. *)
Definition try_block (wd : world) : list (call * option exn) :=
[(NewBoardShim, board_shim_raises wd);
 (PrepareSession, prepare_session_raises wd);
 (StartStream, start_stream_raises wd);
 (NewQApplication, None);
 (NewGraph, graph_raises wd);
 (GraphShow, None);
 (AppExec, app_exec_raises wd);
 (StopStream, stop_stream_raises wd);
 (ReleaseSession, release_session_raises wd)].

(** The calls are made in order up to the first one that raises. *)
Fixpoint run_calls (l : list (call * option exn)) : list call * option exn :=
match l with
| [] => ([], None)
| (c, Some e) :: _ => ([c], Some e)
| (c, None) :: l' => let '(tr, r) := run_calls l' in (c :: tr, r)
end.

Definition main (wd : world) : list call * outcome :=
if parse_args_exits wd then ([SetUpLogging; ParseArgs; SysExit 2], Exit 2)
else
  let '(tr, r) := run_calls (try_block wd) in
  match r with
  | None => ([SetUpLogging; ParseArgs] ++ tr, Return)
  | Some BrainFlowError =>
      ([SetUpLogging; ParseArgs] ++ tr ++ [PrintError; SysExit 1], Exit 1)
  | Some e => ([SetUpLogging; ParseArgs] ++ tr, Uncaught e)
  end.

End Main.

(** ** More concrete sessions *)

Module ExampleMore.

(** A board with four EEG channels but three channel names. *)
Definition board_three_names : BoardShim :=
{| get_board_id := 37;
   get_eeg_channels := [1; 2; 3; 4]%nat;
   get_eeg_names := ["A2"; "A1"; "C4"];
   get_sampling_rate := 250;
   get_marker_channel := 6;
   get_timestamp_channel := 5;
   insert_marker_raises := fun _ _ => false;
   get_current_board_data := fun _ _ => Example.buffer 3;
   get_board_data := fun _ => Example.buffer 3 |}.

(** A board whose driver refuses the end marker. *)
Definition board_refusing_end : BoardShim :=
{| get_board_id := 37;
   get_eeg_channels := [1; 2; 3; 4]%nat;
   get_eeg_names := ["A2"; "A1"; "C4"; "C3"];
   get_sampling_rate := 250;
   get_marker_channel := 6;
   get_timestamp_channel := 5;
   insert_marker_raises := fun _ code => Z.eqb code 6;
   get_current_board_data := fun _ _ => Example.buffer 3;
   get_board_data := fun _ => Example.buffer 3 |}.

(** The short protocol with a negative settle time. *)
Definition g_negative : G.globals :=
{| G.relax_duration := 1; G.song_duration := 2; G.pause_duration := 1;
   G.num_songs := 2; G.song_directory := "./songs"; G.sleep_time := (-1 # 2)%Q |}.

(** The short protocol without settle time. *)
Definition g_no_settle : G.globals :=
{| G.relax_duration := 1; G.song_duration := 2; G.pause_duration := 1;
   G.num_songs := 2; G.song_directory := "./songs"; G.sleep_time := 0%Q |}.

Definition window_no_settle : ExperimentWindow.t :=
ExperimentWindow.__init__ g_no_settle (Example.board 3) "S01".

(** A clock that knows no date after the year 9999. *)
Definition env_year_9999 : Env :=
{| os_path_exists := fun _ => true;
   open_raises := fun _ => None;
   mixer_init_raises := false;
   music_load_raises := fun _ => false;
   music_play_raises := false;
   music_stop_raises := false;
   str_float := fun _ => "100.0";
   fromtimestamp_raises := fun ts =>
     if Qle_bool (253402300800 # 1) ts
     then Some (ValueError "year 10000 is out of range") else None;
   strftime := fun _ => "1970-01-01 00:00:00.000000";
   astype_overflow := fun _ => - 2 ^ 63 |}.

(** A board whose buffer holds [n] samples, all stamped far in the future. *)
Definition board_far_future (n : nat) : BoardShim :=
{| get_board_id := 37;
   get_eeg_channels := [1; 2; 3; 4]%nat;
   get_eeg_names := ["A2"; "A1"; "C4"; "C3"];
   get_sampling_rate := 250;
   get_marker_channel := 6;
   get_timestamp_channel := 5;
   insert_marker_raises := fun _ _ => false;
   get_current_board_data := fun _ _ => Example.buffer n;
   get_board_data := fun _ =>
     mk_ndarray n (repeat (repeat (253402300800 # 1)%Q n) 7) |}.

Definition window_far_future : ExperimentWindow.t :=
ExperimentWindow.__init__ Example.g (board_far_future 3) "S01".
Definition window_empty : ExperimentWindow.t :=
ExperimentWindow.__init__ Example.g (Example.board 0) "S01".

Definition window_three_names : ExperimentWindow.t :=
ExperimentWindow.__init__ Example.g board_three_names "S01".
Definition window_refusing_end : ExperimentWindow.t :=
ExperimentWindow.__init__ Example.g board_refusing_end "S01".
Definition window_negative : ExperimentWindow.t :=
ExperimentWindow.__init__ g_negative (Example.board 3) "S01".

(** The stream cannot be started. *)
Definition world_start_fails : Main.world :=
{| Main.parse_args_exits := false;
   Main.board_shim_raises := None;
   Main.prepare_session_raises := None;
   Main.start_stream_raises := Some BrainFlowError;
   Main.graph_raises := None;
   Main.app_exec_raises := None;
   Main.stop_stream_raises := None;
   Main.release_session_raises := None |}.

End ExampleMore.


(** ** Properties of the monad *)

Lemma add_events_add s a b :
  add_events (add_events s a) b = add_events s (a ++ b).
Proof. unfold add_events; simpl. by rewrite <- app_assoc. Qed.

Lemma add_events_nil s : add_events s [] = s.
Proof. destruct s; unfold add_events; simpl. by rewrite app_nil_r. Qed.

Lemma new_events_add s tr : new_events s (add_events s tr) = tr.
Proof. unfold new_events, add_events; simpl. apply drop_app_length. Qed.

Lemma bind_eq {A B} (m : M A) (k : A -> M B) s :
  (m ≫= k) s = match m s with
               | (Ok a, s') => k a s'
               | (Raise e, s') => (Raise e, s')
               end.
Proof. reflexivity. Qed.

Lemma bind_emit {B} e (k : unit -> M B) s :
  (emit e ≫= k) s = k tt (add_events s [e]).
Proof. reflexivity. Qed.

Lemma bind_ret {A B} (a : A) (k : A -> M B) s : (mret a ≫= k) s = k a s.
Proof. reflexivity. Qed.

Lemma bind_raise {A B} e (k : A -> M B) s : (raise e ≫= k) s = (Raise e, s).
Proof. reflexivity. Qed.

Lemma bind_get_events {B} (k : list event -> M B) s :
  (get_events ≫= k) s = k (events s) s.
Proof. reflexivity. Qed.

Lemma bind_assoc {A B C} (m : M A) (k : A -> M B) (h : B -> M C) s :
  ((m ≫= k) ≫= h) s = (m ≫= (fun a => k a ≫= h)) s.
Proof. rewrite !bind_eq. destruct (m s) as [[a|e] s']; reflexivity. Qed.

(** ** Steps of the protocol *)

Lemma time_sleep_ok d s :
  Qle_bool 0 d = true -> time_sleep d s = (Ok tt, add_events s [EvSleep d]).
Proof. intros H. unfold time_sleep. by rewrite H. Qed.

Lemma time_sleep_inv d s s' :
  time_sleep d s = (Ok tt, s') -> Qle_bool 0 d = true /\ s' = add_events s [EvSleep d].
Proof.
  unfold time_sleep. destruct (Qle_bool 0 d); [|discriminate].
  intros H. split; [done|]. by inversion H.
Qed.

Lemma insert_marker_ok b c s :
  insert_marker_raises b (markers_of (events s)) c = false ->
  insert_marker b c s = (Ok tt, add_events s [EvMarker c]).
Proof. intros H. unfold insert_marker. rewrite bind_get_events. by rewrite H. Qed.

Lemma insert_marker_inv b c s s' :
  insert_marker b c s = (Ok tt, s') ->
  insert_marker_raises b (markers_of (events s)) c = false /\ s' = add_events s [EvMarker c].
Proof.
  unfold insert_marker. rewrite bind_get_events.
  destruct (insert_marker_raises _ _ _); [discriminate|].
  intros H. split; [done|]. by inversion H.
Qed.

Lemma play_song_frame env self path d s :
  ExperimentWorker.play_song env self path d s
  = (Ok tt, add_events s (play_trace env self path d)).
Proof.
  unfold play_trace, ExperimentWorker.play_song, try_except, time_sleep, logging_error.
  rewrite !bind_eq.
  destruct (mixer_init_raises env), (music_load_raises env path),
    (music_play_raises env), (music_stop_raises env), (Qle_bool 0 (inject_Z d));
    unfold emit, raise, add_events; simpl; rewrite <- ?app_assoc; reflexivity.
Qed.

Lemma bind_inv {A B} (m : M A) (k : A -> M B) s (b : B) s' :
  (m ≫= k) s = (Ok b, s') -> exists a s1, m s = (Ok a, s1) /\ k a s1 = (Ok b, s').
Proof.
  rewrite bind_eq. destruct (m s) as [[a|e] s1]; [|discriminate].
  intros H. by exists a, s1.
Qed.

Lemma bind_sleep_ok {B} d (k : unit -> M B) s :
  Qle_bool 0 d = true -> (time_sleep d ≫= k) s = k tt (add_events s [EvSleep d]).
Proof. intros H. rewrite bind_eq. by rewrite (time_sleep_ok _ _ H). Qed.

Lemma bind_marker_ok {B} b c (k : unit -> M B) s :
  insert_marker_raises b (markers_of (events s)) c = false ->
  (insert_marker b c ≫= k) s = k tt (add_events s [EvMarker c]).
Proof. intros H. rewrite bind_eq. by rewrite (insert_marker_ok _ _ _ H). Qed.

Lemma bind_play_song {B} env self path d (k : unit -> M B) s :
  (ExperimentWorker.play_song env self path d ≫= k) s
  = k tt (add_events s (play_trace env self path d)).
Proof. rewrite bind_eq. by rewrite play_song_frame. Qed.

Lemma bind_marker_fail {B} b c (k : unit -> M B) s :
  insert_marker_raises b (markers_of (events s)) c = true ->
  (insert_marker b c ≫= k) s = (Raise BrainFlowError, s).
Proof.
  intros H. rewrite bind_eq. unfold insert_marker. by rewrite bind_get_events, H.
Qed.

Lemma time_sleep_fail d s :
  Qle_bool 0 d = false ->
  time_sleep d s = (Raise (ValueError "sleep length must be non-negative"), s).
Proof. intros H. unfold time_sleep. by rewrite H. Qed.

Lemma bind_sleep_fail {B} d (k : unit -> M B) s :
  Qle_bool 0 d = false ->
  (time_sleep d ≫= k) s = (Raise (ValueError "sleep length must be non-negative"), s).
Proof. intros H. rewrite bind_eq. by rewrite (time_sleep_fail _ _ H). Qed.

Section Protocol.
Context (env : Env) (g : G.globals) (self : ExperimentWorker.t).

Lemma song_step_ok i s :
os_path_exists env (ExperimentWorker.song_path_of g i) = true ->
Qle_bool 0 (G.sleep_time g) = true ->
Qle_bool 0 (inject_Z (G.pause_duration g)) = true ->
driver_accepts (ExperimentWorker.board_shim self) ->
ExperimentWorker.song_step env g self i s
= (Ok tt, add_events s (song_trace env g self i)).
Proof.
intros Hex Hst Hp Hd. unfold ExperimentWorker.song_step, ExperimentWorker.update_message_emit, logging_debug.
rewrite Hex. simpl negb. cbv iota. rewrite bind_ret, bind_emit.
rewrite bind_marker_ok by apply Hd. rewrite bind_emit, bind_play_song.
rewrite (bind_sleep_ok _ _ _ Hst), bind_emit.
rewrite bind_marker_ok by apply Hd. rewrite bind_emit.
rewrite (bind_sleep_ok _ _ _ Hp), (time_sleep_ok _ _ Hst).
rewrite !add_events_add. reflexivity.
Qed.

Lemma song_step_inv i s s' :
ExperimentWorker.song_step env g self i s = (Ok tt, s') ->
s' = add_events s (song_trace env g self i)
/\ os_path_exists env (ExperimentWorker.song_path_of g i) = true
/\ Qle_bool 0 (G.sleep_time g) = true
/\ Qle_bool 0 (inject_Z (G.pause_duration g)) = true.
Proof.
unfold ExperimentWorker.song_step, ExperimentWorker.update_message_emit, logging_debug.
destruct (os_path_exists env _) eqn:Hex; simpl negb; cbv iota;
  [|rewrite bind_raise; discriminate].
rewrite bind_ret, bind_emit. intros H.
apply bind_inv in H as ([] & s1 & H1 & H). apply insert_marker_inv in H1 as [_ ->].
rewrite bind_emit, bind_play_song in H.
apply bind_inv in H as ([] & s2 & H2 & H). apply time_sleep_inv in H2 as [Hst ->].
rewrite bind_emit in H.
apply bind_inv in H as ([] & s3 & H3 & H). apply insert_marker_inv in H3 as [_ ->].
rewrite bind_emit in H.
apply bind_inv in H as ([] & s4 & H4 & H). apply time_sleep_inv in H4 as [Hp ->].
apply time_sleep_inv in H as [_ ->].
rewrite !add_events_add. repeat split; done.
Qed.

Lemma loop_ok l s :
Forall (fun i => os_path_exists env (ExperimentWorker.song_path_of g i) = true) l ->
Qle_bool 0 (G.sleep_time g) = true ->
Qle_bool 0 (inject_Z (G.pause_duration g)) = true ->
driver_accepts (ExperimentWorker.board_shim self) ->
for_each l (ExperimentWorker.song_step env g self) s
= (Ok tt, add_events s (songs_trace env g self l)).
Proof.
intros Hall Hst Hp Hd. revert s.
induction Hall as [|i l Hi _ IH]; intros s; simpl.
- by rewrite add_events_nil.
- rewrite bind_eq, (song_step_ok i s Hi Hst Hp Hd), IH.
  unfold songs_trace. simpl. by rewrite add_events_add.
Qed.

Lemma loop_inv l s s' :
for_each l (ExperimentWorker.song_step env g self) s = (Ok tt, s') ->
s' = add_events s (songs_trace env g self l)
/\ Forall (fun i => os_path_exists env (ExperimentWorker.song_path_of g i) = true) l
/\ (l <> [] -> Qle_bool 0 (inject_Z (G.pause_duration g)) = true).
Proof.
revert s. induction l as [|i l IH]; intros s; simpl.
- intros H. inversion H. by rewrite add_events_nil.
- intros H. apply bind_inv in H as ([] & s1 & H1 & H).
  apply song_step_inv in H1 as (-> & Hex & _ & Hp).
  apply IH in H as (-> & Hall & _).
  unfold songs_trace. simpl. rewrite add_events_add. repeat split; auto.
Qed.

Lemma run_body_ok s :
Forall (fun i => os_path_exists env (ExperimentWorker.song_path_of g i) = true)
       (range (G.num_songs g)) ->
Qle_bool 0 (G.sleep_time g) = true ->
Qle_bool 0 (inject_Z (G.relax_duration g)) = true ->
Qle_bool 0 (inject_Z (G.pause_duration g)) = true ->
driver_accepts (ExperimentWorker.board_shim self) ->
ExperimentWorker.run_body env g self s
= (Ok tt, add_events s (prelude_trace g ++ songs_trace env g self (range (G.num_songs g)))).
Proof.
intros Hall Hst Hr Hp Hd. unfold ExperimentWorker.run_body, ExperimentWorker.update_message_emit, logging_debug.
rewrite bind_marker_ok by apply Hd. rewrite bind_emit.
rewrite (bind_sleep_ok _ _ _ Hst), bind_emit.
rewrite bind_marker_ok by apply Hd. rewrite bind_emit.
rewrite (bind_sleep_ok _ _ _ Hr), (bind_sleep_ok _ _ _ Hst).
rewrite (loop_ok _ _ Hall Hst Hp Hd). rewrite !add_events_add. reflexivity.
Qed.

Lemma run_body_inv s s' :
ExperimentWorker.run_body env g self s = (Ok tt, s') ->
s' = add_events s (prelude_trace g ++ songs_trace env g self (range (G.num_songs g)))
/\ Forall (fun i => os_path_exists env (ExperimentWorker.song_path_of g i) = true)
          (range (G.num_songs g))
/\ Qle_bool 0 (G.sleep_time g) = true
/\ Qle_bool 0 (inject_Z (G.relax_duration g)) = true
/\ (range (G.num_songs g) <> [] -> Qle_bool 0 (inject_Z (G.pause_duration g)) = true).
Proof.
unfold ExperimentWorker.run_body, ExperimentWorker.update_message_emit, logging_debug. intros H.
apply bind_inv in H as ([] & s1 & H1 & H). apply insert_marker_inv in H1 as [_ ->].
rewrite bind_emit in H.
apply bind_inv in H as ([] & s2 & H2 & H). apply time_sleep_inv in H2 as [Hst ->].
rewrite bind_emit in H.
apply bind_inv in H as ([] & s3 & H3 & H). apply insert_marker_inv in H3 as [_ ->].
rewrite bind_emit in H.
apply bind_inv in H as ([] & s4 & H4 & H). apply time_sleep_inv in H4 as [Hr ->].
apply bind_inv in H as ([] & s5 & H5 & H). apply time_sleep_inv in H5 as [_ ->].
apply loop_inv in H as (-> & Hall & Hp).
rewrite !add_events_add. repeat split; done.
Qed.

(** [run] is [run_body] followed by the handler, when it raised, and by
  the two signals of the [finally] block. *)
Lemma run_eq s :
ExperimentWorker.run env g self s
= match ExperimentWorker.run_body env g self s with
  | (Ok _, s') =>
      (Ok tt, add_events s' [EvStatus "Experiment Complete" 5; EvFinished])
  | (Raise e, s') =>
      (Ok tt, add_events s' [EvLog ERROR ("Error in experiment: " +:+ str_exn e);
                             EvStatus "Experiment Complete" 5; EvFinished])
  end.
Proof.
unfold ExperimentWorker.run, ExperimentWorker.update_message_emit, try_finally,
  try_except, logging_error.
change (c_int 5) with 5.
destruct (ExperimentWorker.run_body env g self s) as [[[]|e] s'];
  rewrite ?bind_emit; unfold emit, add_events; simpl;
  rewrite <- ?app_assoc; reflexivity.
Qed.
End Protocol.

(** ** The footprint of an action on the trace *)

Section Footprint.
Context (P : event -> Prop).

Lemma emits_only_ret {A} (a : A) : emits_only P (mret a).
Proof. intros s. exists []. simpl. by rewrite app_nil_r. Qed.

Lemma emits_only_raise {A} e : emits_only P (@raise A e).
Proof. intros s. exists []. simpl. by rewrite app_nil_r. Qed.

Lemma emits_only_get_events : emits_only P get_events.
Proof. intros s. exists []. simpl. by rewrite app_nil_r. Qed.

Lemma emits_only_emit e : P e -> emits_only P (emit e).
Proof. intros H s. exists [e]. simpl. auto. Qed.

Lemma emits_only_bind {A B} (m : M A) (k : A -> M B) :
emits_only P m -> (forall a, emits_only P (k a)) -> emits_only P (m ≫= k).
Proof.
intros Hm Hk s. rewrite bind_eq. destruct (Hm s) as (tr1 & E1 & F1).
destruct (m s) as [[a|e] s1]; simpl in *.
- destruct (Hk a s1) as (tr2 & E2 & F2). exists (tr1 ++ tr2).
  rewrite E2, E1, app_assoc. split; [done|]. by apply Forall_app.
- by exists tr1.
Qed.

Lemma emits_only_try_except {A} (m : M A) (h : exn -> M A) :
emits_only P m -> (forall e, emits_only P (h e)) -> emits_only P (try_except m h).
Proof.
intros Hm Hh s. unfold try_except. destruct (Hm s) as (tr1 & E1 & F1).
destruct (m s) as [[a|e] s1]; simpl in *.
- by exists tr1.
- destruct (Hh e s1) as (tr2 & E2 & F2). exists (tr1 ++ tr2).
  rewrite E2, E1, app_assoc. split; [done|]. by apply Forall_app.
Qed.

Lemma emits_only_for_each {A} (l : list A) (body : A -> M unit) :
(forall x, emits_only P (body x)) -> emits_only P (for_each l body).
Proof.
intros Hb. induction l as [|x l IH]; simpl.
- apply emits_only_ret.
- apply emits_only_bind; auto.
Qed.

Lemma emits_only_map_M {A B} (f : A -> M B) (l : list A) :
(forall x, emits_only P (f x)) -> emits_only P (map_M f l).
Proof.
intros Hf. induction l as [|x l IH]; simpl.
- apply emits_only_ret.
- apply emits_only_bind; [auto|]. intros y.
  apply emits_only_bind; [auto|]. intros ys. apply emits_only_ret.
Qed.

Lemma emits_only_getitem {A} (l : list A) i : emits_only P (getitem l i).
Proof.
unfold getitem. destruct (l !! i); [apply emits_only_ret|apply emits_only_raise].
Qed.

Lemma emits_only_time_sleep d :
((0 <= d)%Q -> P (EvSleep d)) -> emits_only P (time_sleep d).
Proof.
intros H. unfold time_sleep. destruct (Qle_bool 0 d) eqn:Hd.
- apply emits_only_emit, H. by apply Qle_bool_iff.
- apply emits_only_raise.
Qed.

Lemma emits_only_insert_marker b c : P (EvMarker c) -> emits_only P (insert_marker b c).
Proof.
intros H. unfold insert_marker. apply emits_only_bind; [apply emits_only_get_events|].
intros tr. destruct (insert_marker_raises b _ c);
  [apply emits_only_raise|by apply emits_only_emit].
Qed.

Lemma emits_only_write_file env name f :
emits_only P (ExperimentWindow.write_file env name f).
Proof.
unfold ExperimentWindow.write_file. destruct (open_raises env name).
- apply emits_only_raise.
- intros s. exists []. simpl. by rewrite app_nil_r.
Qed.

Lemma emits_only_save env raw name : emits_only P (ExperimentWindow.save env raw name).
Proof.
unfold ExperimentWindow.save. destruct (Nat.eqb _ _).
- apply emits_only_raise.
- apply emits_only_write_file.
Qed.

Lemma emits_only_fromtimestamp env ts :
emits_only P (ExperimentWindow.fromtimestamp_strftime env ts).
Proof.
unfold ExperimentWindow.fromtimestamp_strftime. destruct (fromtimestamp_raises env ts).
- apply emits_only_raise.
- apply emits_only_ret.
Qed.

Lemma emits_only_get_mains : emits_only P Graph.get_mains.
Proof. intros s. exists []. simpl. by rewrite app_nil_r. Qed.

Lemma emits_only_set_mains m : emits_only P (Graph.set_mains m).
Proof. intros s. exists []. simpl. by rewrite app_nil_r. Qed.
End Footprint.

(** Decomposes a footprint goal along the structure of the action. *)
Ltac footprint :=
  repeat first
    [ apply emits_only_ret | apply emits_only_raise | apply emits_only_get_events
    | apply emits_only_getitem | apply emits_only_write_file
    | apply emits_only_save | apply emits_only_fromtimestamp
    | apply emits_only_get_mains | apply emits_only_set_mains
    | apply emits_only_emit | apply emits_only_time_sleep
    | apply emits_only_insert_marker
    | apply emits_only_bind; [|intros ?]
    | apply emits_only_try_except; [|intros ?]
    | apply emits_only_for_each; intros ?
    | apply emits_only_map_M; intros ?
    | match goal with
      | |- emits_only _ (if ?c then _ else _) => destruct c
      | |- emits_only _ (match ?c with _ => _ end) => destruct c
      end ].

Lemma run_body_before_completion env g self :
  emits_only before_completion (ExperimentWorker.run_body env g self).
Proof.
  unfold ExperimentWorker.run_body, ExperimentWorker.song_step,
    ExperimentWorker.update_message_emit,
    ExperimentWorker.play_song, logging_debug, logging_error.
  footprint; try intros _; split; reflexivity.
Qed.

(** ** Reading traces *)

Lemma markers_of_app tr1 tr2 :
  markers_of (tr1 ++ tr2) = markers_of tr1 ++ markers_of tr2.
Proof. apply omap_app. Qed.

Lemma markers_of_cons_marker c tr : markers_of (EvMarker c :: tr) = c :: markers_of tr.
Proof. reflexivity. Qed.

Lemma count_if_app p tr1 tr2 :
  count_if p (tr1 ++ tr2) = (count_if p tr1 + count_if p tr2)%nat.
Proof. induction tr1 as [|e tr1 IH]; simpl; [done|]. rewrite IH. lia. Qed.

Lemma clock_after_app now tr1 tr2 :
  clock_after now (tr1 ++ tr2) = clock_after (clock_after now tr1) tr2.
Proof. apply fold_left_app. Qed.

Lemma quiet_markers_of tr : Forall quiet tr -> markers_of tr = [].
Proof. induction 1 as [|e tr He _ IH]; [done|]. destruct e; simpl in *; done. Qed.

Lemma quiet_count_status p tr :
  (forall e, p e = true -> exists msg d, e = EvStatus msg d) ->
  Forall quiet tr -> count_if p tr = O.
Proof.
  intros Hp. induction 1 as [|e tr He _ IH]; [done|]. simpl. rewrite IH.
  destruct (p e) eqn:E; [|done]. apply Hp in E as (msg & d & ->). done.
Qed.

Lemma quiet_clock now tr : Forall quiet tr -> (now <= clock_after now tr)%Q.
Proof.
  intros H. revert now. induction H as [|e tr He _ IH]; intros now; simpl.
  - lra.
  - destruct e; simpl in *; try apply IH.
    apply Qle_trans with (now + d)%Q; [lra|apply IH].
Qed.

Lemma quiet_spaced st last now tr rest :
  Forall quiet tr ->
  spaced st last (clock_after now tr) rest -> spaced st last now (tr ++ rest).
Proof.
  intros H. revert now. induction H as [|e tr He _ IH]; intros now; simpl; [done|].
  destruct e; simpl in *; try done; apply IH.
Qed.

Lemma spaced_no_marker st last now tr : markers_of tr = [] -> spaced st last now tr.
Proof.
  revert now. induction tr as [|e tr IH]; intros now; simpl; [done|].
  destruct e; simpl; try discriminate; auto.
Qed.

Lemma spaced_adjacent st last c now tr :
  spaced st last now tr ->
  adjacent (fun a b => (fst a + st <= fst b)%Q) ((last, c) :: marker_times now tr).
Proof.
  revert last c now. induction tr as [|e tr IH]; intros last c now.
  - simpl. done.
  - destruct e as [code| | | | | | | | | | | | | | | | | |];
      cbn [spaced marker_times]; try apply IH.
    intros [Hgap H]. split; [done|]. by apply (IH now code now).
Qed.

Lemma adjacent_impl {A} (R R' : A -> A -> Prop) l :
  (forall a b, R a b -> R' a b) -> adjacent R l -> adjacent R' l.
Proof.
  intros HR. induction l as [|a l IH]; simpl; [done|].
  intros [H1 H2]. split; [destruct l; auto|auto].
Qed.

Lemma prefix_empty s : String.prefix "" s = true.
Proof. by destruct s. Qed.

Lemma is_stimulus_status_inv e :
  is_stimulus_status e = true -> exists msg d, e = EvStatus msg d.
Proof. destruct e; try discriminate. eauto. Qed.

Lemma is_relax_status_inv e :
  is_relax_status e = true -> exists msg d, e = EvStatus msg d.
Proof. destruct e; try discriminate. eauto. Qed.

Lemma play_trace_quiet env self path d : Forall quiet (play_trace env self path d).
Proof.
  unfold play_trace, ExperimentWorker.play_song, try_except, time_sleep, logging_error.
  rewrite !bind_eq.
  destruct (mixer_init_raises env), (music_load_raises env path),
    (music_play_raises env), (music_stop_raises env),
    (Qle_bool 0 (inject_Z d)) eqn:Hd;
    unfold emit, raise; simpl; repeat constructor.
  all: by apply Qle_bool_iff.
Qed.

Section SongTrace.
Context (env : Env) (g : G.globals) (self : ExperimentWorker.t).

Lemma song_trace_markers i : markers_of (song_trace env g self i) = [3; 1].
Proof.
unfold song_trace. rewrite !markers_of_app.
rewrite (quiet_markers_of _ (play_trace_quiet _ _ _ _)). reflexivity.
Qed.

Lemma song_trace_stimulus i :
count_if is_stimulus_status (song_trace env g self i) = 1%nat.
Proof.
unfold song_trace. rewrite !count_if_app.
rewrite (quiet_count_status _ _ is_stimulus_status_inv (play_trace_quiet _ _ _ _)).
simpl. by rewrite prefix_empty.
Qed.

Lemma song_trace_relax i :
count_if is_relax_status (song_trace env g self i) = 1%nat.
Proof.
unfold song_trace. rewrite !count_if_app.
rewrite (quiet_count_status _ _ is_relax_status_inv (play_trace_quiet _ _ _ _)).
reflexivity.
Qed.

Lemma songs_trace_cons i l :
songs_trace env g self (i :: l) = song_trace env g self i ++ songs_trace env g self l.
Proof. reflexivity. Qed.

Lemma songs_trace_markers l :
markers_of (songs_trace env g self l) = concat (repeat [3; 1] (length l)).
Proof.
induction l as [|i l IH]; [done|].
by rewrite songs_trace_cons, markers_of_app, song_trace_markers, IH.
Qed.

Lemma songs_trace_stimulus l :
count_if is_stimulus_status (songs_trace env g self l) = length l.
Proof.
induction l as [|i l IH]; [done|].
by rewrite songs_trace_cons, count_if_app, song_trace_stimulus, IH.
Qed.

Lemma songs_trace_relax l :
count_if is_relax_status (songs_trace env g self l) = length l.
Proof.
induction l as [|i l IH]; [done|].
by rewrite songs_trace_cons, count_if_app, song_trace_relax, IH.
Qed.

Lemma song_trace_spaced i last now rest :
(0 <= G.sleep_time g)%Q -> (0 <= inject_Z (G.pause_duration g))%Q ->
(last + G.sleep_time g <= now)%Q ->
(forall last' now', (last' + G.sleep_time g <= now')%Q ->
                    spaced (G.sleep_time g) last' now' rest) ->
spaced (G.sleep_time g) last now (song_trace env g self i ++ rest).
Proof.
intros Hst Hp Hgap Hrest. unfold song_trace. simpl. split; [done|].
rewrite <- app_assoc. apply quiet_spaced; [apply play_trace_quiet|].
pose proof (quiet_clock now _ (play_trace_quiet env self
  (ExperimentWorker.song_path_of g i) (G.song_duration g))) as Hc.
simpl. split; [lra|]. apply Hrest. lra.
Qed.

Lemma songs_trace_spaced l last now rest :
(0 <= G.sleep_time g)%Q ->
(l <> [] -> (0 <= inject_Z (G.pause_duration g))%Q) ->
(last + G.sleep_time g <= now)%Q ->
(forall last' now', (last' + G.sleep_time g <= now')%Q ->
                    spaced (G.sleep_time g) last' now' rest) ->
spaced (G.sleep_time g) last now (songs_trace env g self l ++ rest).
Proof.
intros Hst Hp Hgap Hrest. revert last now Hgap.
induction l as [|i l IH]; intros last now Hgap.
- by apply Hrest.
- assert (Hp' : (0 <= inject_Z (G.pause_duration g))%Q) by (by apply Hp).
  rewrite songs_trace_cons, <- app_assoc. apply song_trace_spaced; try done.
  intros last' now' Hgap'. by apply IH.
Qed.
End SongTrace.

(** ** Delivery of the signals and finalization *)

Lemma shown_quiet tr : Forall quiet (shown tr).
Proof.
  induction tr as [|e tr IH]; [constructor|].
  destruct e; simpl; try done. by constructor.
Qed.

Lemma for_each_app {A} (l1 l2 : list A) (f : A -> M unit) s :
  for_each (l1 ++ l2) f s = (for_each l1 f ;; for_each l2 f) s.
Proof.
  revert s. induction l1 as [|x l1 IH]; intros s; simpl.
  - reflexivity.
  - rewrite bind_assoc, !bind_eq. destruct (f x s) as [[[]|e] s1]; [apply IH|done].
Qed.

Lemma for_each_one {A} (x : A) (f : A -> M unit) s : for_each [x] f s = f x s.
Proof. simpl. rewrite bind_eq. by destruct (f x s) as [[[]|e] s1]. Qed.

Section Session.
Context (env : Env) (eno : Enotools) (g : G.globals) (str_array : list Q -> string).
Context (w : ExperimentWindow.t).

Lemma deliver_statuses tr s :
Forall (fun e => is_finished e = false) tr ->
for_each tr (ExperimentWindow.deliver env eno g str_array w) s
= (Ok tt, add_events s (shown tr)).
Proof.
intros H. revert s. induction H as [|e tr He _ IH]; intros s; cbn [for_each].
- by rewrite add_events_nil.
- destruct e; try discriminate;
    cbn [ExperimentWindow.deliver]; unfold ExperimentWindow.show_message;
    rewrite ?bind_emit, ?bind_ret, IH, ?add_events_add; reflexivity.
Qed.

(** After the end marker, finalization writes no marker. *)
Lemma experiment_finished_markers s :
let out := ExperimentWindow.experiment_finished env eno g str_array w s in
if insert_marker_raises (ExperimentWindow.board_shim w) (markers_of (events s)) 6
then out = (Raise BrainFlowError, s)
else exists tl, events (snd out) = events s ++ EvMarker 6 :: tl /\ Forall quiet tl.
Proof.
unfold ExperimentWindow.experiment_finished. cbv zeta.
destruct (insert_marker_raises _ _ 6) eqn:Hm.
- rewrite bind_eq. unfold insert_marker. rewrite bind_get_events, Hm. reflexivity.
- rewrite (bind_marker_ok _ _ _ _ Hm).
  match goal with
  | |- context [?k (add_events s [EvMarker 6])] =>
      assert (Hk : emits_only quiet k)
  end.
  { unfold logging_debug, logging_info, ExperimentWindow.vstack,
      ExperimentWindow.create_info, ExperimentWindow.RawArray.
    footprint; try done. }
  destruct (Hk (add_events s [EvMarker 6])) as (tl & E & F).
  exists tl. split; [|done]. rewrite E. simpl. by rewrite <- app_assoc.
Qed.

(** The session up to the call of the slot of [finished]. *)
Lemma run_experiment_eq s0 r s' B :
ExperimentWorker.run_body env g (ExperimentWindow.worker w) s0 = (r, s') ->
events s' = events s0 ++ B ->
Forall before_completion B ->
let T := B ++ error_log r ++ [EvStatus "Experiment Complete" 5] in
exists s2,
  events s2 = events s0 ++ T ++ [EvFinished] ++ shown T
  /\ ExperimentWindow.run_experiment env eno g str_array w s0
     = ExperimentWindow.experiment_finished env eno g str_array w s2.
Proof.
intros Hb HB HF T. unfold ExperimentWindow.run_experiment.
rewrite bind_get_events, bind_eq, run_eq, Hb.
remember (add_events s' (error_log r ++ [EvStatus "Experiment Complete" 5; EvFinished]))
  as s1 eqn:Es1.
assert (E1 : events s1 = events s0 ++ T ++ [EvFinished]).
{ rewrite Es1. unfold T. simpl. rewrite HB. rewrite <- !app_assoc. reflexivity. }
assert (Hrun : (match r with
                | Ok _ => (Ok tt, add_events s' [EvStatus "Experiment Complete" 5; EvFinished])
                | Raise e => (Ok tt, add_events s'
                     [EvLog ERROR ("Error in experiment: " +:+ str_exn e);
                      EvStatus "Experiment Complete" 5; EvFinished])
                end : result unit * state) = (Ok tt, s1)).
{ rewrite Es1. by destruct r. }
rewrite Hrun, bind_get_events.
exists (add_events s1 (shown T)). split.
{ simpl. rewrite E1. by rewrite <- !app_assoc. }
rewrite E1, drop_app_length.
rewrite for_each_app, bind_eq, deliver_statuses, for_each_one; [done|].
unfold T. rewrite !Forall_app. split_and!.
- eapply Forall_impl; [exact HF|]. by intros e [_ ?].
- destruct r; repeat constructor.
- repeat constructor.
Qed.
End Session.

(** ** The exceptions an action may raise *)

Section Raises.
Context (Q : exn -> Prop).

Lemma raises_only_ret {A} (a : A) : raises_only Q (mret a).
Proof. intros s e H. discriminate. Qed.

Lemma raises_only_emit ev : raises_only Q (emit ev).
Proof. intros s e H. discriminate. Qed.

Lemma raises_only_raise {A} e : Q e -> raises_only Q (@raise A e).
Proof. intros H s e' E. by inversion E; subst. Qed.

Lemma raises_only_bind {A B} (m : M A) (k : A -> M B) :
raises_only Q m -> (forall a, raises_only Q (k a)) -> raises_only Q (m ≫= k).
Proof.
intros Hm Hk s e. rewrite bind_eq. specialize (Hm s).
destruct (m s) as [[a|e'] s1]; simpl in *.
- apply Hk.
- intros H. apply Hm. by inversion H.
Qed.

Lemma raises_only_for_each {A} (l : list A) (body : A -> M unit) :
Forall (fun x => raises_only Q (body x)) l -> raises_only Q (for_each l body).
Proof.
induction 1 as [|x l Hx _ IH]; simpl.
- apply raises_only_ret.
- apply raises_only_bind; auto.
Qed.

Lemma raises_only_time_sleep d :
Q (ValueError "sleep length must be non-negative") -> raises_only Q (time_sleep d).
Proof.
intros H. unfold time_sleep.
destruct (Qle_bool 0 d); [apply raises_only_emit|by apply raises_only_raise].
Qed.

Lemma raises_only_insert_marker b c : Q BrainFlowError -> raises_only Q (insert_marker b c).
Proof.
intros H s e. unfold insert_marker. rewrite bind_get_events.
destruct (insert_marker_raises b _ c); [|discriminate].
intros E. by inversion E; subst.
Qed.

Lemma raises_only_play_song env self path d :
raises_only Q (ExperimentWorker.play_song env self path d).
Proof. intros s e. rewrite play_song_frame. discriminate. Qed.
End Raises.

Ltac raises :=
  repeat first
    [ apply raises_only_ret | apply raises_only_emit | apply raises_only_play_song
    | apply raises_only_time_sleep | apply raises_only_insert_marker
    | apply raises_only_bind; [|intros ?] ].

Lemma count_if_none p tr : Forall (fun e => p e = false) tr -> count_if p tr = O.
Proof. induction 1 as [|e tr He _ IH]; [done|]. simpl. by rewrite He, IH. Qed.

Lemma quiet_count_stimulus tr : Forall quiet tr -> count_if is_stimulus_status tr = O.
Proof. apply quiet_count_status, is_stimulus_status_inv. Qed.

Lemma quiet_count_relax tr : Forall quiet tr -> count_if is_relax_status tr = O.
Proof. apply quiet_count_status, is_relax_status_inv. Qed.

Lemma range_split (n : Z) (k : nat) :
  (k < Z.to_nat n)%nat ->
  range n = seq 0 k ++ k :: seq (S k) (Z.to_nat n - S k).
Proof.
  intros H. unfold range.
  replace (Z.to_nat n) with (k + S (Z.to_nat n - S k))%nat at 1 by lia.
  by rewrite seq_app.
Qed.

Section Abort.
Context (env : Env) (g : G.globals) (self : ExperimentWorker.t).

Lemma song_step_missing i s :
os_path_exists env (ExperimentWorker.song_path_of g i) = false ->
ExperimentWorker.song_step env g self i s
= (Raise (FileNotFoundError
            ("Song file not found: " +:+ ExperimentWorker.song_path_of g i)), s).
Proof. intros H. unfold ExperimentWorker.song_step. rewrite H. reflexivity. Qed.

Lemma song_step_not_missing i :
os_path_exists env (ExperimentWorker.song_path_of g i) = true ->
raises_only not_missing_asset (ExperimentWorker.song_step env g self i).
Proof.
intros H. unfold ExperimentWorker.song_step, ExperimentWorker.update_message_emit, logging_debug. rewrite H.
simpl negb. cbv iota. raises; exact I.
Qed.

Lemma run_body_not_missing :
Forall (fun i => os_path_exists env (ExperimentWorker.song_path_of g i) = true)
       (range (G.num_songs g)) ->
raises_only not_missing_asset (ExperimentWorker.run_body env g self).
Proof.
intros H. unfold ExperimentWorker.run_body, ExperimentWorker.update_message_emit, logging_debug. raises; try exact I.
apply raises_only_for_each. eapply Forall_impl; [exact H|].
intros i Hi. by apply song_step_not_missing.
Qed.

(** The run aborts at the first missing asset, number [k + 1]. *)
Lemma run_body_missing k s :
(k < Z.to_nat (G.num_songs g))%nat ->
(forall i, (i < k)%nat ->
           os_path_exists env (ExperimentWorker.song_path_of g i) = true) ->
os_path_exists env (ExperimentWorker.song_path_of g k) = false ->
Qle_bool 0 (G.sleep_time g) = true ->
Qle_bool 0 (inject_Z (G.relax_duration g)) = true ->
Qle_bool 0 (inject_Z (G.pause_duration g)) = true ->
driver_accepts (ExperimentWorker.board_shim self) ->
ExperimentWorker.run_body env g self s
= (Raise (FileNotFoundError
            ("Song file not found: " +:+ ExperimentWorker.song_path_of g k)),
   add_events s (prelude_trace g ++ songs_trace env g self (seq 0 k))).
Proof.
intros Hk Hex Hmiss Hst Hr Hp Hd. unfold ExperimentWorker.run_body, ExperimentWorker.update_message_emit, logging_debug.
rewrite bind_marker_ok by apply Hd. rewrite bind_emit.
rewrite (bind_sleep_ok _ _ _ Hst), bind_emit.
rewrite bind_marker_ok by apply Hd. rewrite bind_emit.
rewrite (bind_sleep_ok _ _ _ Hr), (bind_sleep_ok _ _ _ Hst).
rewrite (range_split _ _ Hk), for_each_app, bind_eq.
rewrite loop_ok; try done.
- simpl for_each. rewrite bind_eq, (song_step_missing _ _ Hmiss).
  by rewrite !add_events_add.
- apply Forall_forall. intros i Hi. apply Hex. apply elem_of_seq in Hi. lia.
Qed.
End Abort.

Section SessionTrace.
Context (env : Env) (eno : Enotools) (g : G.globals) (str_array : list Q -> string).
Context (w : ExperimentWindow.t).

(** The whole trace of a session, from the outcome of the [try] block. *)
Lemma session_events s0 r B :
ExperimentWorker.run_body env g (ExperimentWindow.worker w) s0 = (r, add_events s0 B) ->
let out := ExperimentWindow.run_experiment env eno g str_array w s0 in
let T := B ++ error_log r ++ [EvStatus "Experiment Complete" 5] in
if insert_marker_raises (ExperimentWindow.board_shim w)
     (markers_of (events s0) ++ markers_of B) 6
then fst out = Raise BrainFlowError
else exists tl, Forall quiet tl
       /\ new_events s0 (snd out) = T ++ [EvFinished] ++ shown T ++ EvMarker 6 :: tl.
Proof.
intros Hb out T.
assert (HF : Forall before_completion B).
{ destruct (run_body_before_completion env g (ExperimentWindow.worker w) s0)
    as (tr & E & F).
  rewrite Hb in E. simpl in E. apply app_inv_head in E. by subst. }
destruct (run_experiment_eq env eno g str_array w s0 r _ B Hb eq_refl HF)
  as (s2 & E2 & Eout).
fold T in E2. fold out in Eout.
assert (Hm : markers_of (events s2) = markers_of (events s0) ++ markers_of B).
{ rewrite E2. unfold T. rewrite !markers_of_app.
  rewrite (quiet_markers_of _ (shown_quiet _)).
  destruct r; simpl; by rewrite !app_nil_r. }
pose proof (experiment_finished_markers env eno g str_array w s2) as Hfin.
cbv zeta in Hfin. rewrite Hm in Hfin. rewrite <- Eout in Hfin.
destruct (insert_marker_raises _ _ 6).
- by rewrite Hfin.
- destruct Hfin as (tl & E & F). exists tl. split; [done|].
  unfold new_events. rewrite E, E2, <- !app_assoc. by rewrite drop_app_length.
Qed.
End SessionTrace.

(** * The protocol sequencer *)


(** C2.  Whatever happens in the [try] block of [run], success or any
    exception, [run] returns normally, the "Experiment Complete" status is
    emitted exactly once and [finished] fires exactly once; they are the
    last two events of the run. *)
Theorem C2_completion_exactly_once env g self s0 :
  let out := ExperimentWorker.run env g self s0 in
  let tr := new_events s0 (snd out) in
  fst out = Ok tt
  /\ count_if is_complete_status tr = 1%nat
  /\ count_if is_finished tr = 1%nat
  /\ exists tr', tr = tr' ++ [EvStatus "Experiment Complete" 5; EvFinished].
Proof.
  intros out tr. unfold tr, out. rewrite run_eq.
  destruct (run_body_before_completion env g self s0) as (B & E & F).
  assert (Hc : count_if is_complete_status B = O).
  { apply count_if_none. eapply Forall_impl; [exact F|]. by intros e [? _]. }
  assert (Hf : count_if is_finished B = O).
  { apply count_if_none. eapply Forall_impl; [exact F|]. by intros e [_ ?]. }
  destruct (ExperimentWorker.run_body env g self s0) as [[[]|e] s']; simpl in E;
    unfold new_events; simpl; rewrite E, <- app_assoc, drop_app_length.
  - split_and!; [done| | |by exists B].
    + rewrite count_if_app, Hc. reflexivity.
    + rewrite count_if_app, Hf. reflexivity.
  - split_and!; [done| | |].
    + rewrite count_if_app, Hc. reflexivity.
    + rewrite count_if_app, Hf. reflexivity.
    + exists (B ++ [EvLog ERROR ("Error in experiment: " +:+ str_exn e)]).
      by rewrite <- app_assoc.
Qed.



(** C10.  [run] reads the module-level configuration, never the attributes
    stored by the constructor: two workers built on the same board from
    different arguments execute the same sequence, in every environment and
    from every state.  The sequence does follow the module-level values: the
    same worker writes other markers under the values of the script (five
    songs) than under a configuration with two songs. *)
Theorem C10_run_ignores_constructor_arguments :
  (forall env g b s relax1 song1 pause1 num1 sleep1 dir1
          relax2 song2 pause2 num2 sleep2 dir2,
      ExperimentWorker.run env g
        (ExperimentWorker.__init__ b relax1 song1 pause1 num1 sleep1 dir1) s
      = ExperimentWorker.run env g
          (ExperimentWorker.__init__ b relax2 song2 pause2 num2 sleep2 dir2) s)
  /\ ExperimentWorker.run Example.env G.default
       (ExperimentWindow.worker Example.window) Example.s0
     <> ExperimentWorker.run Example.env Example.g
          (ExperimentWindow.worker Example.window) Example.s0.
Proof.
  split.
  - intros. unfold ExperimentWorker.run, ExperimentWorker.run_body,
      ExperimentWorker.song_step. reflexivity.
  - intros H.
    apply (f_equal (fun out => length (markers_of (events (snd out))))) in H.
    vm_compute in H. discriminate.
Qed.

(** * The live view *)

Lemma keeps_store_ret {A} (a : A) : keeps_store (mret a).
Proof. by intros s. Qed.

Lemma keeps_store_raise {A} e : keeps_store (@raise A e).
Proof. by intros s. Qed.

Lemma keeps_store_emit e : keeps_store (emit e).
Proof. by intros s. Qed.

Lemma keeps_store_getitem {A} (l : list A) i : keeps_store (getitem l i).
Proof. unfold getitem. by destruct (l !! i); intros s. Qed.

Lemma keeps_store_bind {A B} (m : M A) (k : A -> M B) :
  keeps_store m -> (forall a, keeps_store (k a)) -> keeps_store (m ≫= k).
Proof.
  intros Hm Hk s. rewrite bind_eq. destruct (Hm s) as [D G].
  destruct (m s) as [[a|e] s1]; simpl in *; [|done].
  destruct (Hk a s1) as [D' G']. by rewrite D', G'.
Qed.

Lemma keeps_store_for_each {A} (l : list A) (body : A -> M unit) :
  (forall x, keeps_store (body x)) -> keeps_store (for_each l body).
Proof.
  intros Hb. induction l as [|x l IH]; simpl.
  - apply keeps_store_ret.
  - apply keeps_store_bind; auto.
Qed.

Lemma display_conditioning_calls tr : Forall display_event tr -> conditioning_calls tr = [].
Proof. induction 1 as [|e tr He _ IH]; [done|]. destruct e; simpl in *; done. Qed.

Lemma display_count_detect tr : Forall display_event tr -> count_if is_detect_mains tr = O.
Proof. induction 1 as [|e tr He _ IH]; [done|]. destruct e; simpl in *; done. Qed.

Lemma display_filters_with m tr : Forall display_event tr -> Forall (filters_with m) tr.
Proof.
  intros H. eapply Forall_impl; [exact H|]. intros e He. by destruct e.
Qed.

Section LiveView.
Context (env : Env) (eno : Enotools) (self : Graph.t).

Lemma show_channel_display q d cc :
emits_only display_event (Graph.show_channel env self q d cc).
Proof. unfold Graph.show_channel. destruct cc. footprint; exact I. Qed.

Lemma show_channel_keeps q d cc : keeps_store (Graph.show_channel env self q d cc).
Proof.
unfold Graph.show_channel. destruct cc.
repeat first [ apply keeps_store_getitem | apply keeps_store_emit
             | apply keeps_store_bind; [|intros ?]
             | match goal with |- keeps_store (if ?c then _ else _) => destruct c end ].
Qed.

Lemma update_short s :
enough self s = false ->
Graph.update env eno self s
= (Ok tt, add_events s [EvGetCurrentBoardData (Graph.num_points self)]).
Proof.
unfold enough, pulled. intros H. unfold Graph.update.
rewrite bind_get_events, bind_emit. cbn [events add_events].
change (events (add_events s _)) with (events s ++ [EvGetCurrentBoardData (Graph.num_points self)]).
by rewrite H.
Qed.

Lemma bind_get_mains {B} (k : option (list Q) -> M B) s :
(Graph.get_mains ≫= k) s = k (graph_mains s) s.
Proof. reflexivity. Qed.

Lemma bind_set_mains {B} m (k : unit -> M B) s :
(Graph.set_mains m ≫= k) s = k tt (mk_state (events s) (disk s) (Some m)).
Proof. reflexivity. Qed.

Lemma update_long s :
enough self s = true ->
exists tl,
  events (snd (Graph.update env eno self s))
  = events s ++ [EvGetCurrentBoardData (Graph.num_points self)]
    ++ conditioning_trace eno self s ++ tl
  /\ Forall display_event tl
  /\ graph_mains (snd (Graph.update env eno self s)) = Some (mains_after eno self s)
  /\ disk (snd (Graph.update env eno self s)) = disk s.
Proof.
unfold enough, pulled. intros H. unfold Graph.update.
rewrite bind_get_events, bind_emit. rewrite H. cbv zeta.
unfold conditioning_trace, mains_after, pulled.
rewrite bind_get_mains. cbn [graph_mains add_events].
destruct (graph_mains s) as [m|] eqn:Hm.
- rewrite bind_ret, !bind_emit, bind_get_mains, bind_emit.
  cbn [graph_mains add_events]. rewrite Hm.
  match goal with
  | |- context [for_each ?l ?f ?sx] =>
      destruct (emits_only_for_each display_event l f
                  (show_channel_display _ _) sx) as (tl & E & F);
      destruct (keeps_store_for_each l f (show_channel_keeps _ _) sx) as [D G]
  end.
  exists tl. rewrite E, G, D. unfold add_events. cbn [events disk graph_mains].
  rewrite <- ?app_assoc. cbn [app]. by rewrite ?Hm.
- rewrite bind_assoc, bind_emit, bind_set_mains, !bind_emit, bind_get_mains, bind_emit.
  cbn [graph_mains add_events events disk].
  match goal with
  | |- context [for_each ?l ?f ?sx] =>
      destruct (emits_only_for_each display_event l f
                  (show_channel_display _ _) sx) as (tl & E & F);
      destruct (keeps_store_for_each l f (show_channel_keeps _ _) sx) as [D G]
  end.
  exists tl. rewrite E, G, D. unfold add_events. cbn [events disk graph_mains].
  rewrite <- ?app_assoc. cbn [app]. by rewrite ?Hm.
Qed.
End LiveView.

Section Ticks.
Context (env : Env) (eno : Enotools) (self : Graph.t).

Lemma tick_snd s : snd (Graph.tick env eno self s) = snd (Graph.update env eno self s).
Proof. unfold Graph.tick, try_except. by destruct (Graph.update env eno self s) as [[|] ?]. Qed.

Lemma tick_fst s : fst (Graph.tick env eno self s) = Ok tt.
Proof.
unfold Graph.tick, try_except.
by destruct (Graph.update env eno self s) as [[[]|] ?].
Qed.

Lemma ticks_S n s :
Graph.ticks env eno self (S n) s
= Graph.ticks env eno self n (snd (Graph.tick env eno self s)).
Proof.
cbn [Graph.ticks]. rewrite bind_eq. pose proof (tick_fst s) as H.
destruct (Graph.tick env eno self s) as [r s1]. simpl in *. by subst r.
Qed.

Lemma ticks_add j k s :
snd (Graph.ticks env eno self (j + k) s)
= snd (Graph.ticks env eno self k (snd (Graph.ticks env eno self j s))).
Proof.
revert s. induction j as [|j IH]; intros s; [done|].
change (S j + k)%nat with (S (j + k)). by rewrite !ticks_S, IH.
Qed.

Lemma ticks_one s :
snd (Graph.ticks env eno self 1 s) = snd (Graph.tick env eno self s).
Proof. by rewrite ticks_S. Qed.

(** What one tick does to the trace and to [Graph.mains]. *)
Lemma tick_spec s :
let s' := snd (Graph.tick env eno self s) in
exists tr,
  events s' = events s ++ tr
  /\ match graph_mains s with
     | Some m => graph_mains s' = Some m /\ count_if is_detect_mains tr = O
                 /\ Forall (filters_with m) tr
     | None =>
         if enough self s
         then graph_mains s' = Some (detect_mains eno (pulled self s))
              /\ count_if is_detect_mains tr = 1%nat
         else graph_mains s' = None /\ count_if is_detect_mains tr = O
     end.
Proof.
cbv zeta. rewrite tick_snd. destruct (enough self s) eqn:He.
- destruct (update_long env eno self s He) as (tl & E & F & G & _).
  eexists. split; [exact E|]. rewrite G.
  unfold conditioning_trace, mains_after.
  destruct (graph_mains s) as [m|]; rewrite !count_if_app; cbn [count_if];
    rewrite (display_count_detect _ F); simpl.
  + split_and!; try done. repeat constructor. by apply display_filters_with.
  + done.
- rewrite (update_short env eno self s He). eexists. split; [reflexivity|].
  simpl. destruct (graph_mains s); split_and!; try done. repeat constructor.
Qed.

(** Once stored, the estimate is kept and reused by every later tick. *)
Lemma ticks_stored n s m :
graph_mains s = Some m ->
let s' := snd (Graph.ticks env eno self n s) in
exists tr,
  events s' = events s ++ tr /\ graph_mains s' = Some m
  /\ count_if is_detect_mains tr = O /\ Forall (filters_with m) tr.
Proof.
revert s. induction n as [|n IH]; intros s Hm; cbv zeta.
- exists []. simpl. by rewrite app_nil_r.
- rewrite ticks_S. destruct (tick_spec s) as (tr1 & E1 & H1).
  rewrite Hm in H1. destruct H1 as (G1 & C1 & F1).
  destruct (IH _ G1) as (tr2 & E2 & G2 & C2 & F2).
  exists (tr1 ++ tr2). rewrite E2, E1, <- app_assoc, count_if_app, C1, C2.
  split_and!; try done. by apply Forall_app.
Qed.

Lemma ticks_at_most_once n s :
exists tr,
  events (snd (Graph.ticks env eno self n s)) = events s ++ tr
  /\ (count_if is_detect_mains tr <= 1)%nat.
Proof.
revert s. induction n as [|n IH]; intros s.
- exists []. simpl. rewrite app_nil_r. split; [done|lia].
- rewrite ticks_S. destruct (tick_spec s) as (tr1 & E1 & H1).
  destruct (graph_mains s) as [m|].
  + destruct H1 as (G1 & C1 & _).
    destruct (ticks_stored n _ m G1) as (tr2 & E2 & _ & C2 & _).
    exists (tr1 ++ tr2). rewrite E2, E1, <- app_assoc, count_if_app, C1, C2.
    split; [done|lia].
  + destruct (enough self s).
    * destruct H1 as (G1 & C1).
      destruct (ticks_stored n _ _ G1) as (tr2 & E2 & _ & C2 & _).
      exists (tr1 ++ tr2). rewrite E2, E1, <- app_assoc, count_if_app, C1, C2.
      split; [done|lia].
    * destruct H1 as (G1 & C1). destruct (IH (snd (Graph.tick env eno self s)))
        as (tr2 & E2 & C2).
      exists (tr1 ++ tr2). rewrite E2, E1, <- app_assoc, count_if_app, C1.
      split; [done|lia].
Qed.

(** No estimate is made as long as no snapshot is long enough. *)
Lemma ticks_not_enough k s :
graph_mains s = None ->
(forall j, (j < k)%nat ->
           enough self (snd (Graph.ticks env eno self j s)) = false) ->
let s' := snd (Graph.ticks env eno self k s) in
exists tr, events s' = events s ++ tr /\ graph_mains s' = None
           /\ count_if is_detect_mains tr = O.
Proof.
revert s. induction k as [|k IH]; intros s Hm Hne; cbv zeta.
- exists []. simpl. by rewrite app_nil_r.
- rewrite ticks_S. destruct (tick_spec s) as (tr1 & E1 & H1).
  rewrite Hm in H1. pose proof (Hne O ltac:(lia)) as H0. simpl in H0.
  rewrite H0 in H1. destruct H1 as [G1 C1].
  destruct (IH _ G1) as (tr2 & E2 & G2 & C2).
  { intros j Hj. rewrite <- ticks_S. apply Hne. lia. }
  exists (tr1 ++ tr2). rewrite E2, E1, <- app_assoc, count_if_app, C1, C2. done.
Qed.
End Ticks.

Lemma new_events_eq s0 s1 tr : events s1 = events s0 ++ tr -> new_events s0 s1 = tr.
Proof. intros E. unfold new_events. rewrite E. apply drop_app_length. Qed.

(** C5, as the code has it.  A tick whose snapshot holds at most three seconds of
    samples ([shape[1] <= 3 * sampling_rate]) makes no conditioning call and
    raises nothing.  A tick whose snapshot holds strictly more calls, in
    this order, [detect_mains] (only when no estimate is stored yet), then
    [quality], [referencing] and [signal_filtering]. *)
Theorem C5_update_conditioning env eno self s :
  let out := Graph.update env eno self s in
  let calls := conditioning_calls (new_events s (snd out)) in
  if Z.of_nat (shape1 (pulled self s)) >? 3 * Graph.sampling_rate self
  then calls = match graph_mains s with None => ["detect_mains"] | Some _ => [] end
               ++ ["quality"; "referencing"; "signal_filtering"]
  else out = (Ok tt, add_events s [EvGetCurrentBoardData (Graph.num_points self)])
       /\ calls = [].
Proof.
  intros out calls. fold (enough self s). destruct (enough self s) eqn:He.
  - destruct (update_long env eno self s He) as (tl & E & F & _).
    unfold calls, out. rewrite (new_events_eq _ _ _ E).
    unfold conditioning_calls. rewrite !omap_app.
    fold (conditioning_calls tl). rewrite (display_conditioning_calls _ F).
    unfold conditioning_trace. by destruct (graph_mains s).
  - unfold calls, out. rewrite (update_short env eno self s He).
    split; [done|]. cbn [snd]. by rewrite new_events_add.
Qed.

(** C9.  In a live-view session, which starts with no estimate stored,
    [detect_mains] is called at most once.  The first tick whose snapshot is
    long enough calls it and stores the result; from then on every tick
    keeps the stored value, filters with it and never calls [detect_mains]
    again. *)
Theorem C9_mains_computed_once env eno self s0 n :
  let st k := snd (Graph.ticks env eno self k s0) in
  graph_mains s0 = None ->
  (count_if is_detect_mains (new_events s0 (st n)) <= 1)%nat
  /\ (forall k,
        (forall j, (j < k)%nat -> enough self (st j) = false) ->
        enough self (st k) = true ->
        graph_mains (st (S k)) = Some (detect_mains eno (pulled self (st k)))
        /\ count_if is_detect_mains (new_events s0 (st (S k))) = 1%nat)
  /\ (forall j k m,
        graph_mains (st j) = Some m ->
        graph_mains (st (j + k)%nat) = Some m
        /\ count_if is_detect_mains (new_events (st j) (st (j + k)%nat)) = O
        /\ Forall (filters_with m) (new_events (st j) (st (j + k)%nat))).
Proof.
  intros st H0. split_and!.
  - destruct (ticks_at_most_once env eno self n s0) as (tr & E & C).
    unfold st. by rewrite (new_events_eq _ _ _ E).
  - intros k Hne He.
    destruct (ticks_not_enough env eno self k s0 H0 Hne) as (tr & E & G & C).
    fold (st k) in E, G.
    destruct (tick_spec env eno self (st k)) as (tr1 & E1 & H1).
    rewrite G, He in H1. destruct H1 as [G1 C1].
    assert (Hst : st (S k) = snd (Graph.tick env eno self (st k))).
    { unfold st. replace (S k) with (k + 1)%nat by lia.
      by rewrite ticks_add, ticks_one. }
    rewrite Hst. split; [done|].
    rewrite E, <- app_assoc in E1. rewrite (new_events_eq _ _ _ E1).
    rewrite count_if_app. lia.
  - intros j k m Hm. unfold st at 1 3 5. rewrite ticks_add. fold (st j).
    destruct (ticks_stored env eno self k (st j) m Hm) as (tr & E & G & C & F).
    by rewrite (new_events_eq _ _ _ E).
Qed.

(** * Finalization *)

Lemma heads_tails_cons {A} (cols : list (list A)) :
  Forall (fun c => c <> []) cols ->
  forall d, heads_tails cols = Some (map (fun c => hd d c) cols, map (@tl A) cols).
Proof.
  induction 1 as [|c cols Hc _ IH]; intros d; [done|].
  destruct c as [|x c]; [done|]. simpl. by rewrite (IH d).
Qed.

Lemma map_ext_Forall {A B} (f h : A -> B) (l : list A) :
  Forall (fun x => f x = h x) l -> map f l = map h l.
Proof. induction 1 as [|x l Hx _ IH]; [done|]. simpl. by rewrite Hx, IH. Qed.

Lemma py_zip_rect {A} (d : A) n (first : list A) (others : list (list A)) :
  length first = n -> Forall (fun c => length c = n) others ->
  py_zip first others
  = map (fun j => nth j first d :: map (fun c => nth j c d) others) (seq 0 n).
Proof.
  revert n others. induction first as [|x first IH]; intros n others Hn Ho.
  - simpl in Hn. by subst n.
  - simpl in Hn. subst n. cbn [py_zip].
    rewrite (heads_tails_cons others) with (d := d).
    + rewrite (IH (length first) (map (@tl A) others) eq_refl).
      * cbn [seq map]. f_equal.
        { f_equal. apply map_ext_Forall. eapply Forall_impl; [exact Ho|].
          intros c Hc. by destruct c. }
        rewrite <- seq_shift, map_map. apply map_ext. intros j. cbn [nth].
        f_equal. rewrite map_map. apply map_ext_Forall.
        eapply Forall_impl; [exact Ho|]. intros c Hc. by destruct c.
      * apply Forall_map. eapply Forall_impl; [exact Ho|].
        intros c Hc. destruct c; simpl in *; lia.
    + eapply Forall_impl; [exact Ho|]. intros c Hc. by destruct c.
Qed.

Lemma nth_map_lt {A B} (f : A -> B) (l : list A) j d d' :
  (j < length l)%nat -> nth j (map f l) d = f (nth j l d').
Proof.
  revert j. induction l as [|x l IH]; intros j Hj; simpl in *; [lia|].
  destruct j; [done|]. apply IH. lia.
Qed.

Lemma getitem_ok {A} (l : list A) i x s : l !! i = Some x -> getitem l i s = (Ok x, s).
Proof. intros H. unfold getitem. by rewrite H. Qed.

Lemma bind_getitem_ok {A B} (l : list A) i d (k : A -> M B) s :
  (i < length l)%nat -> (getitem l i ≫= k) s = k (nth i l d) s.
Proof.
  intros H. rewrite bind_eq. destruct (lookup_lt_is_Some_2 l i H) as [x Hx].
  rewrite (getitem_ok _ _ _ _ Hx). by rewrite (nth_lookup_Some _ _ _ _ Hx).
Qed.

Lemma bind_getitem_missing {A B} (l : list A) i (k : A -> M B) s :
  (length l <= i)%nat -> (getitem l i ≫= k) s = (Raise IndexError, s).
Proof.
  intros H. rewrite bind_eq. unfold getitem. by rewrite (lookup_ge_None_2 l i H).
Qed.

Lemma map_M_getitem_ok {A} (l : list A) d chs s :
  Forall (fun ch => (ch < length l)%nat) chs ->
  map_M (getitem l) chs s = (Ok (map (fun ch => nth ch l d) chs), s).
Proof.
  induction 1 as [|ch chs Hch _ IH]; [done|].
  cbn [map_M]. rewrite (bind_getitem_ok _ _ d) by done.
  rewrite bind_eq, IH. reflexivity.
Qed.

Lemma map_M_getitem_missing {A} (l : list A) chs s :
  ~ Forall (fun ch => (ch < length l)%nat) chs ->
  map_M (getitem l) chs s = (Raise IndexError, s).
Proof.
  induction chs as [|ch chs IH]; intros H.
  - destruct H. constructor.
  - cbn [map_M]. rewrite bind_eq. unfold getitem at 1.
    destruct (l !! ch) as [x|] eqn:Hx; [|done].
    cbn. rewrite bind_eq, IH; [done|].
    intros Hall. apply H. constructor; [|done]. by eapply lookup_lt_Some.
Qed.

Lemma keeps_file_ret {A} name (a : A) : keeps_file name (mret a).
Proof. by intros s. Qed.

Lemma keeps_file_raise {A} name e : keeps_file name (@raise A e).
Proof. by intros s. Qed.

Lemma keeps_file_emit name e : keeps_file name (emit e).
Proof. by intros s. Qed.

Lemma keeps_file_getitem {A} name (l : list A) i : keeps_file name (getitem l i).
Proof. unfold getitem. by destruct (l !! i); intros s. Qed.

Lemma keeps_file_bind {A B} name (m : M A) (k : A -> M B) :
  keeps_file name m -> (forall a, keeps_file name (k a)) -> keeps_file name (m ≫= k).
Proof.
  intros Hm Hk s. rewrite bind_eq. specialize (Hm s).
  destruct (m s) as [[a|e] s1]; simpl in *; [|done].
  by rewrite (Hk a s1).
Qed.

Lemma keeps_file_map_M {A B} name (f : A -> M B) (l : list A) :
  (forall x, keeps_file name (f x)) -> keeps_file name (map_M f l).
Proof.
  intros Hf. induction l as [|x l IH]; simpl.
  - apply keeps_file_ret.
  - apply keeps_file_bind; [auto|]. intros y.
    apply keeps_file_bind; [auto|]. intros ys. apply keeps_file_ret.
Qed.

Lemma keeps_file_write_file env name name' f :
  name' <> name -> keeps_file name (ExperimentWindow.write_file env name' f).
Proof.
  intros H. unfold ExperimentWindow.write_file.
  destruct (open_raises env name'); intros s; [done|].
  simpl. by rewrite lookup_insert_ne.
Qed.

Lemma keeps_file_save env name name' raw :
  name' <> name -> keeps_file name (ExperimentWindow.save env raw name').
Proof.
  intros H. unfold ExperimentWindow.save. destruct (Nat.eqb _ _).
  - apply keeps_file_raise.
  - by apply keeps_file_write_file.
Qed.

Lemma keeps_file_fromtimestamp env name ts :
  keeps_file name (ExperimentWindow.fromtimestamp_strftime env ts).
Proof.
  unfold ExperimentWindow.fromtimestamp_strftime.
  destruct (fromtimestamp_raises env ts); [apply keeps_file_raise|apply keeps_file_ret].
Qed.

Lemma append_inj_l (p a b : string) : p +:+ a = p +:+ b -> a = b.
Proof. induction p as [|c p IH]; simpl; [done|]. intros H. apply IH. by inversion H. Qed.

Lemma output_filenames_differ w :
  ExperimentWindow.output_fif_filename w <> ExperimentWindow.output_csv_filename w.
Proof.
  unfold ExperimentWindow.output_fif_filename, ExperimentWindow.output_csv_filename.
  intros H. apply append_inj_l in H. discriminate.
Qed.

Lemma column_length data i :
  wf_ndarray data -> (i < length (rows data))%nat ->
  length (nth i (rows data) []) = shape1 data.
Proof.
  intros Hwf Hi. destruct (lookup_lt_is_Some_2 _ _ Hi) as [x Hx].
  rewrite (nth_lookup_Some _ _ _ _ Hx). by eapply (Forall_lookup_1 _ _ _ _ Hwf).
Qed.

(** The rows [zip] builds from the channels of a rectangular buffer. *)
Lemma csv_rows_eq env b data :
  wf_ndarray data -> channels_present b data ->
  py_zip (map CFloat (nth (get_timestamp_channel b) (rows data) []))
    (map CStr (map (strftime env) (nth (get_timestamp_channel b) (rows data) []))
     :: map (map CFloat) (map (fun ch => nth ch (rows data) []) (get_eeg_channels b))
        ++ [map CInt (map (astype_int env) (nth (get_marker_channel b) (rows data) []))])
  = map (csv_row env b data) (seq 0 (shape1 data)).
Proof.
  intros Hwf (Hmk & Hts & Heeg).
  pose proof (column_length _ _ Hwf Hmk) as Lmk.
  pose proof (column_length _ _ Hwf Hts) as Lts.
  rewrite (py_zip_rect (CInt 0) (shape1 data)).
  - apply map_ext_in. intros j Hj. apply in_seq in Hj.
    unfold csv_row, sample. cbn [app map]. f_equal.
    { apply nth_map_lt. lia. }
    f_equal.
    { rewrite map_map. rewrite (nth_map_lt _ _ _ _ 0%Q); [done|lia]. }
    rewrite map_app, !map_map. f_equal.
    + apply map_ext_Forall. eapply Forall_impl; [exact Heeg|].
      intros ch Hch. cbv beta. apply nth_map_lt.
      rewrite (column_length _ _ Hwf Hch). lia.
    + cbn [map]. f_equal.
      rewrite (nth_map_lt _ _ _ _ 0%Q); [done|lia].
  - by rewrite length_map.
  - constructor; [by rewrite !length_map|]. apply Forall_app. split.
    + rewrite map_map. apply Forall_map. eapply Forall_impl; [exact Heeg|].
      intros ch Hch. cbv beta. rewrite length_map. by apply column_length.
    + repeat constructor. by rewrite !length_map.
Qed.

Lemma bind_write_file {B} env name f (k : unit -> M B) s :
  open_raises env name = None ->
  (ExperimentWindow.write_file env name f ≫= k) s
  = k tt (mk_state (events s) (<[name := f]> (disk s)) (graph_mains s)).
Proof. intros H. rewrite bind_eq. unfold ExperimentWindow.write_file. by rewrite H. Qed.

Lemma bind_write_file_fail {B} env name f e (k : unit -> M B) s :
  open_raises env name = Some e ->
  (ExperimentWindow.write_file env name f ≫= k) s = (Raise e, s).
Proof. intros H. rewrite bind_eq. unfold ExperimentWindow.write_file. by rewrite H. Qed.

Lemma bind_map_M_getitem_ok {A B} (l : list A) d chs (k : list A -> M B) s :
  Forall (fun ch => (ch < length l)%nat) chs ->
  (map_M (getitem l) chs ≫= k) s = k (map (fun ch => nth ch l d) chs) s.
Proof. intros H. rewrite bind_eq. by rewrite (map_M_getitem_ok l d chs s H). Qed.

Lemma fromtimestamp_ok env ts s :
  fromtimestamp_raises env ts = None ->
  ExperimentWindow.fromtimestamp_strftime env ts s = (Ok (strftime env ts), s).
Proof. intros H. unfold ExperimentWindow.fromtimestamp_strftime. by rewrite H. Qed.

Lemma map_M_fromtimestamp_ok env l s :
  formattable env l ->
  map_M (ExperimentWindow.fromtimestamp_strftime env) l s = (Ok (map (strftime env) l), s).
Proof.
  induction 1 as [|ts l H _ IH]; [done|].
  cbn [map_M map]. rewrite bind_eq, (fromtimestamp_ok _ _ _ H), bind_eq, IH.
  reflexivity.
Qed.

(** The first timestamp that cannot be turned into a date decides the
    error. *)
Lemma map_M_fromtimestamp_fail env l s :
  ~ formattable env l ->
  exists e ts, In ts l /\ fromtimestamp_raises env ts = Some e
    /\ map_M (ExperimentWindow.fromtimestamp_strftime env) l s = (Raise e, s).
Proof.
  induction l as [|ts l IH]; intros H.
  - destruct H. constructor.
  - cbn [map_M]. rewrite bind_eq.
    destruct (fromtimestamp_raises env ts) as [e|] eqn:Hts.
    { exists e, ts. split_and!; [by left|done|].
      unfold ExperimentWindow.fromtimestamp_strftime. by rewrite Hts. }
    rewrite (fromtimestamp_ok _ _ _ Hts), bind_eq.
    destruct IH as (e & ts' & Hin & Hr & He).
    + intros Hl. apply H. by constructor.
    + exists e, ts'. split_and!; [by right|done|]. by rewrite He.
Qed.

Lemma bind_map_M_fromtimestamp_ok {B} env l (k : list string -> M B) s :
  formattable env l ->
  (map_M (ExperimentWindow.fromtimestamp_strftime env) l ≫= k) s
  = k (map (strftime env) l) s.
Proof. intros H. rewrite bind_eq. by rewrite (map_M_fromtimestamp_ok env l s H). Qed.

Lemma vstack_ok (a : list (list Q)) (v : list Q) s :
  Forall (fun r => length r = length v) a ->
  ExperimentWindow.vstack a v s = (Ok (a ++ [v]), s).
Proof.
  intros H. unfold ExperimentWindow.vstack.
  assert (E : forallb (fun r => Nat.eqb (length r) (length v)) a = true).
  { induction H as [|r a Hr _ IH]; [done|]. simpl. rewrite IH.
    by rewrite (proj2 (Nat.eqb_eq _ _) Hr). }
  by rewrite E.
Qed.

(** The recording built from a rectangular buffer has its samples. *)
Lemma fif_rows_n_times b data info :
  wf_ndarray data -> channels_present b data ->
  ExperimentWindow.n_times (mk_raw (fif_rows b data) info) = shape1 data.
Proof.
  intros Hwf (Hmk & _ & Heeg). unfold ExperimentWindow.n_times, fif_rows.
  cbn [raw_data]. destruct (get_eeg_channels b) as [|ch chs]; cbn [map app hd].
  - by apply column_length.
  - rewrite length_map. apply column_length; [done|]. by inversion Heeg.
Qed.

(** The first steps of finalization, up to the reading of the channels. *)
Ltac finalize_prefix g w s Hm Hst :=
  unfold ExperimentWindow.experiment_finished, logging_debug, logging_info; cbv zeta;
  rewrite (bind_marker_ok _ _ _ _ Hm), bind_emit, (bind_sleep_ok _ _ _ Hst), bind_emit;
  rewrite !add_events_add; cbn [app]; rewrite bind_get_events, !bind_emit;
  cbn [events add_events];
  match goal with
  | |- context [signal_filtering ?e ?d ?c ?bp ?bs] =>
      change (signal_filtering e d c bp bs)
        with (finalized_buffer e g (ExperimentWindow.board_shim w) s)
  end.

Section Finalize.
Context (env : Env) (eno : Enotools) (g : G.globals) (str_array : list Q -> string).
Context (w : ExperimentWindow.t).

Abbreviation b := (ExperimentWindow.board_shim w).
Abbreviation finished := (ExperimentWindow.experiment_finished env eno g str_array w).
Abbreviation data s := (finalized_buffer eno g (ExperimentWindow.board_shim w) s).

(** A refused end marker stops finalization at once. *)
Lemma finished_refused s :
insert_marker_raises b (markers_of (events s)) 6 = true ->
finished s = (Raise BrainFlowError, s).
Proof.
intros Hm. pose proof (experiment_finished_markers env eno g str_array w s) as H.
cbv zeta in H. by rewrite Hm in H.
Qed.

(** So does a negative settle time. *)
Lemma finished_sleep_fail s :
insert_marker_raises b (markers_of (events s)) 6 = false ->
Qle_bool 0 (G.sleep_time g) = false ->
finished s
= (Raise (ValueError "sleep length must be non-negative"),
   add_events s [EvMarker 6; EvLog DEBUG "Inserted marker 6 (End of experiment)"]).
Proof.
intros Hm Hst. unfold ExperimentWindow.experiment_finished, logging_debug. cbv zeta.
rewrite (bind_marker_ok _ _ _ _ Hm), bind_emit, (bind_sleep_fail _ _ _ Hst).
by rewrite add_events_add.
Qed.

(** When the marker row or the timestamp row is missing, indexing raises
  before any file is written. *)
Lemma finished_no_row s :
insert_marker_raises b (markers_of (events s)) 6 = false ->
Qle_bool 0 (G.sleep_time g) = true ->
~ ((get_marker_channel b < length (rows (data s)))%nat
   /\ (get_timestamp_channel b < length (rows (data s)))%nat) ->
fst (finished s) = Raise IndexError /\ disk (snd (finished s)) = disk s.
Proof.
intros Hm Hst Habs. finalize_prefix g w s Hm Hst.
set (d := finalized_buffer eno g b s) in *.
destruct (decide (get_marker_channel b < length (rows d))%nat) as [Hmk|Hmk].
2:{ rewrite bind_getitem_missing by lia. done. }
rewrite (bind_getitem_ok _ _ []) by done. rewrite bind_emit.
destruct (decide (get_timestamp_channel b < length (rows d))%nat) as [Hts|Hts].
2:{ rewrite bind_getitem_missing by lia. done. }
by destruct Habs.
Qed.

(** Finalization either gets as far as the CSV file and can open it, or
  raises with no file written. *)
Lemma finished_reach_or_fail s :
(insert_marker_raises b (markers_of (events s)) 6 = false
 /\ Qle_bool 0 (G.sleep_time g) = true
 /\ channels_present b (data s)
 /\ formattable env (nth (get_timestamp_channel b) (rows (data s)) [])
 /\ open_raises env (ExperimentWindow.output_csv_filename w) = None)
\/ ((exists e, fst (finished s) = Raise e) /\ disk (snd (finished s)) = disk s).
Proof.
destruct (insert_marker_raises b (markers_of (events s)) 6) eqn:Hm.
{ right. rewrite (finished_refused s Hm). split; [by eexists|done]. }
destruct (Qle_bool 0 (G.sleep_time g)) eqn:Hst.
2:{ right. rewrite (finished_sleep_fail s Hm Hst). split; [by eexists|done]. }
destruct (decide ((get_marker_channel b < length (rows (data s)))%nat
                  /\ (get_timestamp_channel b < length (rows (data s)))%nat))
  as [[Hmk Hts]|Hrow].
2:{ right. destruct (finished_no_row s Hm Hst Hrow) as [E D].
    split; [by eexists|done]. }
destruct (decide (formattable env (nth (get_timestamp_channel b) (rows (data s)) [])))
  as [Hf|Hf].
2:{ right. finalize_prefix g w s Hm Hst.
    rewrite (bind_getitem_ok _ _ []) by done. rewrite bind_emit.
    rewrite (bind_getitem_ok _ _ []) by done.
    rewrite (bind_getitem_ok _ _ []) by done.
    rewrite bind_eq.
    match goal with
    | |- context [map_M (ExperimentWindow.fromtimestamp_strftime env) ?l ?s1] =>
        destruct (map_M_fromtimestamp_fail env l s1 Hf) as (e & _ & _ & _ & He);
        rewrite He
    end.
    split; [by eexists|done]. }
destruct (decide (Forall (fun ch => (ch < length (rows (data s)))%nat)
                         (get_eeg_channels b))) as [Heeg|Heeg].
2:{ right. finalize_prefix g w s Hm Hst.
    rewrite (bind_getitem_ok _ _ []) by done. rewrite bind_emit.
    rewrite (bind_getitem_ok _ _ []) by done.
    rewrite (bind_getitem_ok _ _ []) by done.
    rewrite (bind_map_M_fromtimestamp_ok _ _ _ _ Hf).
    rewrite bind_eq, map_M_getitem_missing by done.
    split; [by eexists|done]. }
destruct (open_raises env (ExperimentWindow.output_csv_filename w)) as [e|] eqn:Ho.
{ right. finalize_prefix g w s Hm Hst.
  rewrite (bind_getitem_ok _ _ []) by done. rewrite bind_emit.
  rewrite (bind_getitem_ok _ _ []) by done.
  rewrite (bind_getitem_ok _ _ []) by done.
  rewrite (bind_map_M_fromtimestamp_ok _ _ _ _ Hf).
  rewrite (bind_map_M_getitem_ok _ [] _ _ _ Heeg).
  rewrite (bind_write_file_fail _ _ _ _ _ _ Ho).
  split; [by eexists|done]. }
left. by split_and!.
Qed.

(** A timestamp that cannot be turned into a date stops finalization
  before the CSV file is opened. *)
Lemma finished_unformattable s :
insert_marker_raises b (markers_of (events s)) 6 = false ->
Qle_bool 0 (G.sleep_time g) = true ->
(get_marker_channel b < length (rows (data s)))%nat ->
(get_timestamp_channel b < length (rows (data s)))%nat ->
~ formattable env (nth (get_timestamp_channel b) (rows (data s)) []) ->
exists e ts,
  In ts (nth (get_timestamp_channel b) (rows (data s)) [])
  /\ fromtimestamp_raises env ts = Some e
  /\ fst (finished s) = Raise e
  /\ disk (snd (finished s)) = disk s.
Proof.
intros Hm Hst Hmk Hts Hf. finalize_prefix g w s Hm Hst.
rewrite (bind_getitem_ok _ _ []) by done. rewrite bind_emit.
rewrite (bind_getitem_ok _ _ []) by done.
rewrite (bind_getitem_ok _ _ []) by done.
rewrite bind_eq.
match goal with
| |- context [map_M (ExperimentWindow.fromtimestamp_strftime env) ?l ?s1] =>
    destruct (map_M_fromtimestamp_fail env l s1 Hf) as (e & ts & Hin & Hr & He);
    rewrite He
end.
by exists e, ts.
Qed.

(** Once the CSV file is written, the outcome is decided by the sampling
  rate, the number of channel names, the number of samples and the FIF
  file. *)
Lemma finished_fif s :
insert_marker_raises b (markers_of (events s)) 6 = false ->
Qle_bool 0 (G.sleep_time g) = true ->
wf_ndarray (data s) ->
channels_present b (data s) ->
formattable env (nth (get_timestamp_channel b) (rows (data s)) []) ->
open_raises env (ExperimentWindow.output_csv_filename w) = None ->
finished s
= let s3 := after_csv env eno g str_array w s in
  if (get_sampling_rate b <=? 0)%Z
  then (Raise (ValueError "sfreq must be positive"), s3)
  else if Nat.eqb (length (get_eeg_names b)) (length (get_eeg_channels b))
  then if Nat.eqb (shape1 (data s)) 0
       then (Raise (ValueError "tmin (0) and tmax (None) yielded no samples"), s3)
       else match open_raises env (ExperimentWindow.output_fif_filename w) with
            | Some e => (Raise e, s3)
            | None =>
                (Ok tt,
                 mk_state (events s3)
                   (<[ExperimentWindow.output_fif_filename w :=
                        FifFile (mk_raw (fif_rows b (data s)) (fif_info b))]> (disk s3))
                   (graph_mains s3))
            end
  else (Raise (ValueError "ch_types and ch_names must be the same length"), s3).
Proof.
intros Hm Hst Hwf Hp Hf Ho. pose proof Hp as (Hmk & Hts & Heeg). cbv zeta.
finalize_prefix g w s Hm Hst.
set (d := finalized_buffer eno g b s) in *.
rewrite (bind_getitem_ok _ _ []) by done. rewrite bind_emit.
rewrite (bind_getitem_ok _ _ []) by done.
rewrite (bind_getitem_ok _ _ []) by done.
rewrite (bind_map_M_fromtimestamp_ok _ _ _ _ Hf).
rewrite (bind_map_M_getitem_ok _ [] _ _ _ Heeg).
change ([map CStr ?x] ++ ?y) with (map CStr x :: y).
rewrite (csv_rows_eq env b d Hwf Hp). rewrite (bind_write_file _ _ _ _ _ Ho), bind_emit.
rewrite (bind_map_M_getitem_ok _ [] _ _ _ Heeg).
rewrite (bind_getitem_ok _ _ []) by done.
rewrite bind_eq, vstack_ok.
2:{ rewrite map_map. apply Forall_map. eapply Forall_impl; [exact Heeg|].
    intros ch Hch. cbv beta. rewrite length_map.
    by rewrite !column_length. }
match goal with
| |- ?k ?st = _ =>
    assert (E : st = after_csv env eno g str_array w s);
      [|rewrite E; clear E; generalize (after_csv env eno g str_array w s); intros s3]
end.
{ unfold after_csv, add_events, pre_export_trace. cbn [events disk graph_mains].
  rewrite <- !app_assoc. reflexivity. }
unfold ExperimentWindow.create_info.
destruct (get_sampling_rate b <=? 0)%Z; [by rewrite bind_raise|].
rewrite !length_app, repeat_length. cbn [length].
replace (Nat.eqb (length (get_eeg_names b) + 1) (length (get_eeg_channels b) + 1))
  with (Nat.eqb (length (get_eeg_names b)) (length (get_eeg_channels b))).
2:{ destruct (Nat.eqb_spec (length (get_eeg_names b)) (length (get_eeg_channels b)))
      as [En|En].
    - symmetry. apply Nat.eqb_eq. lia.
    - symmetry. apply Nat.eqb_neq. lia. }
destruct (Nat.eqb_spec (length (get_eeg_names b)) (length (get_eeg_channels b)))
  as [En|En]; [|by rewrite bind_raise].
rewrite bind_ret. unfold ExperimentWindow.RawArray. cbn [ch_names].
rewrite !length_app, !length_map, En, Nat.eqb_refl, bind_ret.
unfold ExperimentWindow.save. rewrite map_map.
change (map (fun ch => map (fun v => (v / (1000000 # 1))%Q) (nth ch (rows d) []))
            (get_eeg_channels b) ++ [nth (get_marker_channel b) (rows d) []])
  with (fif_rows b d).
change (mk_info (get_eeg_names b ++ ["stim"]) (get_sampling_rate b)
          (repeat "eeg" (length (get_eeg_channels b)) ++ ["stim"]))
  with (fif_info b).
rewrite (fif_rows_n_times b d _ Hwf Hp).
destruct (Nat.eqb (shape1 d) 0); [done|].
unfold ExperimentWindow.write_file.
by destruct (open_raises env (ExperimentWindow.output_fif_filename w)).
Qed.

(** When the CSV stage is reached, the CSV file is written, and what
  follows leaves it alone. *)
Lemma finished_csv s :
insert_marker_raises b (markers_of (events s)) 6 = false ->
Qle_bool 0 (G.sleep_time g) = true ->
wf_ndarray (data s) ->
channels_present b (data s) ->
formattable env (nth (get_timestamp_channel b) (rows (data s)) []) ->
open_raises env (ExperimentWindow.output_csv_filename w) = None ->
disk (snd (finished s)) !! ExperimentWindow.output_csv_filename w
= Some (CsvFile (ExperimentWindow.header w
                 :: map (csv_row env b (data s)) (seq 0 (shape1 (data s))))).
Proof.
intros Hm Hst Hwf Hp Hf Ho. rewrite (finished_fif s Hm Hst Hwf Hp Hf Ho). cbv zeta.
assert (E : disk (after_csv env eno g str_array w s)
              !! ExperimentWindow.output_csv_filename w
            = Some (CsvFile (ExperimentWindow.header w
                             :: map (csv_row env b (data s))
                                  (seq 0 (shape1 (data s)))))).
{ unfold after_csv. cbn [disk]. apply lookup_insert_eq. }
destruct (get_sampling_rate b <=? 0)%Z; [exact E|].
destruct (Nat.eqb (length (get_eeg_names b)) _); [|exact E].
destruct (Nat.eqb (shape1 (data s)) 0); [exact E|].
destruct (open_raises env (ExperimentWindow.output_fif_filename w)); [exact E|].
cbn [snd disk]. rewrite lookup_insert_ne; [exact E|apply output_filenames_differ].
Qed.

(** When, in addition, the sampling rate is positive, there is one name
  per EEG channel, the recording has samples and the FIF file can be
  opened, finalization succeeds and writes both files. *)
Lemma finished_ok s :
insert_marker_raises b (markers_of (events s)) 6 = false ->
Qle_bool 0 (G.sleep_time g) = true ->
wf_ndarray (data s) ->
channels_present b (data s) ->
formattable env (nth (get_timestamp_channel b) (rows (data s)) []) ->
open_raises env (ExperimentWindow.output_csv_filename w) = None ->
0 < get_sampling_rate b ->
length (get_eeg_names b) = length (get_eeg_channels b) ->
shape1 (data s) <> O ->
open_raises env (ExperimentWindow.output_fif_filename w) = None ->
finished s
= (Ok tt,
   mk_state (events (after_csv env eno g str_array w s))
     (<[ExperimentWindow.output_fif_filename w :=
          FifFile (mk_raw (fif_rows b (data s)) (fif_info b))]>
        (disk (after_csv env eno g str_array w s)))
     (graph_mains (after_csv env eno g str_array w s))).
Proof.
intros Hm Hst Hwf Hp Hf Ho Hsf Hn Hns Hof.
rewrite (finished_fif s Hm Hst Hwf Hp Hf Ho). cbv zeta.
rewrite (proj2 (Z.leb_gt _ _) Hsf), Hn, Nat.eqb_refl.
rewrite (proj2 (Nat.eqb_neq _ _) Hns), Hof. reflexivity.
Qed.

(** Conversely, finalization succeeds only then. *)
Lemma finished_ok_inv s :
wf_ndarray (data s) ->
fst (finished s) = Ok tt ->
insert_marker_raises b (markers_of (events s)) 6 = false
/\ Qle_bool 0 (G.sleep_time g) = true
/\ channels_present b (data s)
/\ formattable env (nth (get_timestamp_channel b) (rows (data s)) [])
/\ open_raises env (ExperimentWindow.output_csv_filename w) = None
/\ 0 < get_sampling_rate b
/\ length (get_eeg_names b) = length (get_eeg_channels b)
/\ shape1 (data s) <> O
/\ open_raises env (ExperimentWindow.output_fif_filename w) = None.
Proof.
intros Hwf Hok.
destruct (finished_reach_or_fail s) as [(Hm & Hst & Hp & Hf & Ho)|[[e He] _]].
2:{ rewrite He in Hok. discriminate. }
rewrite (finished_fif s Hm Hst Hwf Hp Hf Ho) in Hok. cbv zeta in Hok.
destruct (Z.leb_spec (get_sampling_rate b) 0) as [Hsf|Hsf]; [discriminate|].
destruct (Nat.eqb_spec (length (get_eeg_names b)) (length (get_eeg_channels b)))
  as [Hn|Hn]; [|discriminate].
destruct (Nat.eqb_spec (shape1 (data s)) 0) as [Hns|Hns]; [discriminate|].
destruct (open_raises env (ExperimentWindow.output_fif_filename w)); [discriminate|].
by split_and!.
Qed.
End Finalize.

(** The rows of a rectangular buffer that are there have the same length. *)
Lemma present_integrity b data :
  wf_ndarray data -> channels_present b data -> export_integrity b data.
Proof.
  intros Hwf Hp. split; [done|]. destruct Hp as (Hmk & Hts & Heeg).
  eapply Forall_impl; [exact Heeg|]. intros ch Hch. cbv beta.
  by rewrite !column_length.
Qed.


Lemma trunc_inject_Z x c : (x == inject_Z c)%Q -> trunc x = c.
Proof.
  unfold Qeq, trunc. simpl. intros H. rewrite Z.mul_1_r in H. rewrite H.
  apply Z.quot_mul. lia.
Qed.

Lemma astype_int_in_range env x :
  - 2 ^ 63 <= trunc x < 2 ^ 63 -> astype_int env x = trunc x.
Proof.
  intros [H1 H2]. unfold astype_int.
  by rewrite (proj2 (Z.leb_le _ _) H1), (proj2 (Z.ltb_lt _ _) H2).
Qed.





(** A session of the short protocol on the example board. *)
Lemma example_finalization :
  insert_marker_raises (Example.board 3) (markers_of (events Example.s0)) 6 = false
  /\ (0 <= G.sleep_time Example.g)%Q
  /\ wf_ndarray (finalized_buffer Example.eno Example.g (Example.board 3) Example.s0)
  /\ channels_present (Example.board 3)
       (finalized_buffer Example.eno Example.g (Example.board 3) Example.s0)
  /\ formattable Example.env
       (nth (get_timestamp_channel (Example.board 3))
          (rows (finalized_buffer Example.eno Example.g (Example.board 3) Example.s0))
          [])
  /\ open_raises Example.env (ExperimentWindow.output_csv_filename Example.window) = None
  /\ open_raises Example.env (ExperimentWindow.output_fif_filename Example.window) = None.
Proof.
  split_and!.
  - reflexivity.
  - vm_compute; discriminate.
  - unfold wf_ndarray. vm_compute. repeat constructor.
  - unfold channels_present. vm_compute. split_and!; [lia|lia|repeat constructor; lia].
  - unfold formattable. vm_compute. repeat constructor.
  - reflexivity.
  - reflexivity.
Defined.



(** The snapshot holds exactly three seconds of samples (750 at 250 Hz), not
    fewer, and no estimate is stored; yet the tick makes no conditioning
    call. *)
Lemma C5_counterexample :
  let self := Graph.__init__ (Example.board 750) "S01" in
  let out := Graph.update Example.env Example.eno self Example.s0 in
  ~ (Z.of_nat (shape1 (pulled self Example.s0)) < 3 * Graph.sampling_rate self)
  /\ graph_mains Example.s0 = None
  /\ conditioning_calls (new_events Example.s0 (snd out)) = []
  /\ conditioning_calls (new_events Example.s0 (snd out))
     <> ["detect_mains"; "quality"; "referencing"; "signal_filtering"].
Proof.
  split_and!.
  - vm_compute. discriminate.
  - reflexivity.
  - vm_compute. reflexivity.
  - vm_compute. discriminate.
Qed.




Lemma C9_witness :
  let self := Graph.__init__ (Example.board 751) "S01" in
  let st k := snd (Graph.ticks Example.env Example.eno self k Example.s0) in
  graph_mains Example.s0 = None
  /\ (count_if is_detect_mains (new_events Example.s0 (st 3%nat)) <= 1)%nat
  /\ graph_mains (st 1%nat) = Some [(50 # 1)%Q; (100 # 1)%Q]
  /\ graph_mains (st 3%nat) = Some [(50 # 1)%Q; (100 # 1)%Q]
  /\ count_if is_detect_mains (new_events (st 1%nat) (st 3%nat)) = O.
Proof.
  intros self st.
  assert (H0 : graph_mains Example.s0 = None) by reflexivity.
  destruct (C9_mains_computed_once Example.env Example.eno self Example.s0 3 H0)
    as (Hle & Hfirst & Hlater).
  assert (He : enough self (st O) = true) by (vm_compute; reflexivity).
  destruct (Hfirst O (fun j Hj => match Nat.nlt_0_r j Hj with end) He) as [G1 _].
  destruct (Hlater 1%nat 2%nat _ G1) as (G3 & C3 & _).
  split_and!; [exact H0|exact Hle|exact G1|exact G3|exact C3].
Defined.

(** * Further properties of the code *)

(** ** Asset names *)

Lemma to_uint_nonnil n : Nat.to_uint n <> Nil.
Proof.
  rewrite <- (DecimalNat.Unsigned.of_to n) at 1.
  rewrite DecimalNat.Unsigned.to_of. apply DecimalFacts.unorm_nonnil.
Qed.

Lemma str_nat_eq n : str_nat n = NilEmpty.string_of_uint (Nat.to_uint n).
Proof.
  unfold str_nat, NilZero.string_of_uint.
  pose proof (to_uint_nonnil n). by destruct (Nat.to_uint n).
Qed.

Lemma zeros_string_of_uint k d :
  string_of_list_ascii (repeat "0"%char k) +:+ NilEmpty.string_of_uint d
  = NilEmpty.string_of_uint (Nat.iter k D0 d).
Proof. induction k as [|k IH]; simpl; [done|]. by rewrite <- IH. Qed.

Lemma of_uint_zeros k d : Nat.of_uint (Nat.iter k D0 d) = Nat.of_uint d.
Proof. induction k as [|k IH]; simpl; [done|]. exact IH. Qed.

Lemma fmt_03d_parse n : parse_nat (fmt_03d n) = Some n.
Proof.
  unfold parse_nat, fmt_03d. cbv zeta. rewrite str_nat_eq at 2.
  rewrite zeros_string_of_uint, NilEmpty.usu. simpl.
  by rewrite of_uint_zeros, DecimalNat.Unsigned.of_to.
Qed.

Lemma string_length_app (a b : string) :
  String.length (a +:+ b) = (String.length a + String.length b)%nat.
Proof. induction a as [|c a IH]; simpl; [done|]. by rewrite IH. Qed.

Lemma zeros_length k : String.length (string_of_list_ascii (repeat "0"%char k)) = k.
Proof. induction k as [|k IH]; simpl; [done|]. by rewrite IH. Qed.

(** X2.  The number of a song is written with at least three characters,
    zeros in front of its decimal digits, and reads back as the number. *)
Theorem fmt_03d_spec n :
  parse_nat (fmt_03d n) = Some n
  /\ String.length (fmt_03d n) = Nat.max 3 (String.length (str_nat n))
  /\ exists k, fmt_03d n = string_of_list_ascii (repeat "0"%char k) +:+ str_nat n.
Proof.
  split_and!.
  - apply fmt_03d_parse.
  - unfold fmt_03d. cbv zeta. rewrite string_length_app, zeros_length. lia.
  - by eexists.
Qed.

Lemma append_inj_r (a b t : string) : a +:+ t = b +:+ t -> a = b.
Proof.
  intros H.
  assert (L : String.length a = String.length b).
  { apply (f_equal String.length) in H. rewrite !string_length_app in H. lia. }
  revert b H L. induction a as [|c a IH]; intros [|c' b] H L; simpl in *;
    try done; try lia.
  inversion H; subst. f_equal. apply IH; [done|lia].
Qed.

(** X1.  Two different songs never resolve to the same asset path. *)
Theorem song_path_of_inj g i j :
  i <> j -> ExperimentWorker.song_path_of g i <> ExperimentWorker.song_path_of g j.
Proof.
  unfold ExperimentWorker.song_path_of. intros Hij H. apply Hij.
  apply append_inj_l in H. apply (append_inj_l "/song") in H.
  apply append_inj_r in H. apply (f_equal parse_nat) in H.
  rewrite !fmt_03d_parse in H. inversion H. lia.
Qed.

(** ** Playback *)

Lemma play_trace_cases env self path d :
  let tr := play_trace env self path d in
  if mixer_fails env path
  then waits_of tr = []
       /\ last tr = Some (EvLog ERROR "Error playing song: pygame.error")
  else if Qle_bool 0 (inject_Z d)
  then tr = [EvMixerInit; EvMusicLoad path; EvMusicPlay; EvSleep (inject_Z d);
             if music_stop_raises env
             then EvLog ERROR "Error playing song: pygame.error"
             else EvMusicStop]
  else tr = [EvMixerInit; EvMusicLoad path; EvMusicPlay;
             EvLog ERROR "Error playing song: sleep length must be non-negative"].
Proof.
  unfold mixer_fails, play_trace, ExperimentWorker.play_song, try_except,
    time_sleep, logging_error.
  rewrite !bind_eq.
  destruct (mixer_init_raises env), (music_load_raises env path),
    (music_play_raises env), (music_stop_raises env), (Qle_bool 0 (inject_Z d));
    simpl; auto.
Qed.


(** ** The signals and the waits of a complete run *)

Lemma log_lines_app tr1 tr2 : log_lines (tr1 ++ tr2) = log_lines tr1 ++ log_lines tr2.
Proof. apply omap_app. Qed.

Lemma statuses_of_app tr1 tr2 :
  statuses_of (tr1 ++ tr2) = statuses_of tr1 ++ statuses_of tr2.
Proof. apply omap_app. Qed.

Lemma waits_of_app tr1 tr2 : waits_of (tr1 ++ tr2) = waits_of tr1 ++ waits_of tr2.
Proof. apply omap_app. Qed.

Lemma quiet_statuses_of tr : Forall quiet tr -> statuses_of tr = [].
Proof. induction 1 as [|e tr He _ IH]; [done|]. destruct e; simpl in *; done. Qed.

Lemma songs_trace_statuses env g self l :
  statuses_of (songs_trace env g self l)
  = concat (map (fun i => [("Song " +:+ str_nat (i + 1), c_int (G.song_duration g));
                           ("Relax", c_int (G.pause_duration g))]) l).
Proof.
  induction l as [|i l IH]; [done|].
  rewrite songs_trace_cons, statuses_of_app, IH. unfold song_trace.
  rewrite !statuses_of_app, (quiet_statuses_of _ (play_trace_quiet _ _ _ _)).
  reflexivity.
Qed.

Lemma c_int_small d : - 2 ^ 31 <= d < 2 ^ 31 -> c_int d = d.
Proof. intros H. unfold c_int. rewrite Z.mod_small; lia. Qed.

(** X4.  A run whose [try] block raises nothing sends exactly these status
    signals, in this order: "Relax with eyes closed" with [relax_duration],
    then for each song "Song i" with [song_duration] and "Relax" with
    [pause_duration], then "Experiment Complete" with 5.  The signal
    carries the duration as a C [int]: a duration that fits 32 bits arrives
    as it is, a larger one arrives reduced modulo 2^32. *)
Theorem run_statuses env g self s0 :
  fst (ExperimentWorker.run_body env g self s0) = Ok tt ->
  let sent := statuses_of (new_events s0 (snd (ExperimentWorker.run env g self s0))) in
  sent = ("Relax with eyes closed", c_int (G.relax_duration g))
         :: concat (map (fun i => [("Song " +:+ str_nat (i + 1),
                                    c_int (G.song_duration g));
                                   ("Relax", c_int (G.pause_duration g))])
                        (range (G.num_songs g)))
         ++ [("Experiment Complete", 5)]
  /\ (- 2 ^ 31 <= G.relax_duration g < 2 ^ 31 ->
      - 2 ^ 31 <= G.song_duration g < 2 ^ 31 ->
      - 2 ^ 31 <= G.pause_duration g < 2 ^ 31 ->
      sent = ("Relax with eyes closed", G.relax_duration g)
             :: concat (map (fun i => [("Song " +:+ str_nat (i + 1), G.song_duration g);
                                       ("Relax", G.pause_duration g)])
                            (range (G.num_songs g)))
             ++ [("Experiment Complete", 5)])
  /\ (forall d, - 2 ^ 31 <= c_int d < 2 ^ 31 /\ (c_int d - d) mod 2 ^ 32 = 0).
Proof.
  intros Hok sent.
  assert (E : sent = protocol_statuses g).
  { unfold sent. rewrite run_eq.
    destruct (ExperimentWorker.run_body env g self s0) as [r s'] eqn:Hb.
    simpl in Hok. subst r. apply run_body_inv in Hb as (-> & _). cbn [snd].
    rewrite add_events_add, new_events_add, <- app_assoc, !statuses_of_app.
    rewrite songs_trace_statuses. reflexivity. }
  split_and!.
  - exact E.
  - intros Hr Hs Hp. rewrite E. unfold protocol_statuses.
    by rewrite !c_int_small.
  - intros d. unfold c_int. split.
    + pose proof (Z.mod_pos_bound (d + 2 ^ 31) (2 ^ 32) ltac:(lia)). lia.
    + replace ((d + 2 ^ 31) mod 2 ^ 32 - 2 ^ 31 - d)
        with ((d + 2 ^ 31) mod 2 ^ 32 - (d + 2 ^ 31)) by lia.
      rewrite Zminus_mod, Zmod_mod, Z.sub_diag. reflexivity.
Qed.

Lemma songs_trace_waits env g self l :
  (forall p, mixer_fails env p = false) ->
  Qle_bool 0 (inject_Z (G.song_duration g)) = true ->
  waits_of (songs_trace env g self l)
  = concat (repeat [inject_Z (G.song_duration g); G.sleep_time g;
                    inject_Z (G.pause_duration g); G.sleep_time g] (length l)).
Proof.
  intros Hmix Hd. induction l as [|i l IH]; [done|].
  rewrite songs_trace_cons, waits_of_app, IH. unfold song_trace.
  rewrite !waits_of_app.
  pose proof (play_trace_cases env self (ExperimentWorker.song_path_of g i)
                (G.song_duration g)) as H.
  cbv zeta in H. rewrite Hmix, Hd in H. rewrite H. by destruct (music_stop_raises env).
Qed.


(** ** The markers of any run *)

(** One step of the symbolic execution of the worker, on every outcome of
    the call at the head. *)
Ltac run_step :=
  match goal with
  | |- context [(emit ?e ≫= ?k) ?s] => rewrite (bind_emit e k s)
  | |- context [(insert_marker ?b ?c ≫= ?k) ?s] =>
      let H := fresh "Hm" in
      destruct (insert_marker_raises b (markers_of (events s)) c) eqn:H;
      [rewrite (bind_marker_fail b c k s H) | rewrite (bind_marker_ok b c k s H)]
  | |- context [(time_sleep ?d ≫= ?k) ?s] =>
      let H := fresh "Hs" in
      destruct (Qle_bool 0 d) eqn:H;
      [rewrite (bind_sleep_ok d k s H) | rewrite (bind_sleep_fail d k s H)]
  | |- context [(ExperimentWorker.play_song ?env ?self ?p ?d ≫= ?k) ?s] =>
      rewrite (bind_play_song env self p d k s)
  | |- context [time_sleep ?d ?s] =>
      let H := fresh "Hs" in
      destruct (Qle_bool 0 d) eqn:H;
      [rewrite (time_sleep_ok d s H) | rewrite (time_sleep_fail d s H)]
  end.

(** Closes a goal on the markers of an explicit trace. *)
Ltac trace_markers :=
  rewrite ?add_events_add; eexists; split; [reflexivity|];
  rewrite ?markers_of_app, ?(quiet_markers_of _ (play_trace_quiet _ _ _ _));
  simpl; split; [|done];
  first [by exists [3; 1] | by exists [1] | by exists [] ].

Section AnyRun.
Context (env : Env) (g : G.globals) (self : ExperimentWorker.t).

Lemma song_step_markers i s :
  let out := ExperimentWorker.song_step env g self i s in
  exists tr, snd out = add_events s tr
             /\ markers_of tr `prefix_of` [3; 1]
             /\ (fst out = Ok tt -> markers_of tr = [3; 1]).
Proof.
  cbv zeta. unfold ExperimentWorker.song_step, ExperimentWorker.update_message_emit, logging_debug.
  destruct (os_path_exists env _); simpl negb; cbv iota.
  2:{ rewrite bind_raise. exists []. rewrite add_events_nil.
      split_and!; [done|by exists [3; 1]|done]. }
  rewrite bind_ret. repeat (run_step; try (solve [trace_markers])).
Qed.

Lemma loop_markers l s :
  let out := for_each l (ExperimentWorker.song_step env g self) s in
  exists tr, snd out = add_events s tr
             /\ markers_of tr `prefix_of` concat (repeat [3; 1] (length l))
             /\ (fst out = Ok tt -> markers_of tr = concat (repeat [3; 1] (length l))).
Proof.
  cbv zeta. revert s. induction l as [|i l IH]; intros s.
  - exists []. simpl. by rewrite add_events_nil.
  - cbn [for_each]. rewrite bind_eq.
    destruct (song_step_markers i s) as (tr1 & E1 & P1 & O1).
    destruct (ExperimentWorker.song_step env g self i s) as [[[]|e] s1];
      simpl in E1, O1; subst s1.
    + destruct (IH (add_events s tr1)) as (tr2 & E2 & P2 & O2).
      exists (tr1 ++ tr2). rewrite E2, add_events_add, markers_of_app, O1 by done.
      split_and!; [done|by apply prefix_app|].
      intros Hok. cbn [length repeat concat]. by rewrite O2.
    + exists tr1. split_and!; [done| |done].
      cbn [length repeat concat]. by apply prefix_app_r.
Qed.

Lemma run_body_markers s :
  let out := ExperimentWorker.run_body env g self s in
  exists tr, snd out = add_events s tr
             /\ markers_of tr `prefix_of` protocol_markers (Z.to_nat (G.num_songs g)).
Proof.
  cbv zeta. unfold ExperimentWorker.run_body, ExperimentWorker.update_message_emit, logging_debug, protocol_markers.
  repeat (run_step;
          try (solve [ exists []; rewrite add_events_nil; split;
                         [reflexivity|apply prefix_nil]
                     | rewrite ?add_events_add; eexists; split; [reflexivity|];
                       simpl; repeat first [apply prefix_nil | apply prefix_cons]])).
  rewrite !add_events_add.
  match goal with
  | |- context [for_each ?l ?f ?sx] =>
      destruct (loop_markers l sx) as (tr & E & P & _)
  end.
  cbv zeta in E. rewrite E, add_events_add. eexists. split; [reflexivity|].
  rewrite markers_of_app. unfold range in P. rewrite length_seq in P.
  simpl. by apply (prefix_app [5; 1]).
Qed.

(** X6.  Whatever fails, and wherever, the markers [run] has written
    are an initial part of the sequence 5, 1, then 3, 1 for each song:
    a marker is never written out of order or twice. *)
Theorem run_markers_prefix s0 :
  markers_of (new_events s0 (snd (ExperimentWorker.run env g self s0)))
  `prefix_of` protocol_markers (Z.to_nat (G.num_songs g)).
Proof.
  rewrite run_eq. destruct (run_body_markers s0) as (tr & E & P). cbv zeta in E.
  destruct (ExperimentWorker.run_body env g self s0) as [[[]|e] s']; simpl in E;
    subst s'; cbn [snd]; rewrite add_events_add, new_events_add, markers_of_app;
    simpl; by rewrite app_nil_r.
Qed.
End AnyRun.

(** ** [zip] and the shape of the CSV export *)

Lemma min_length_empty {A} n (cols : list (list A)) :
  Exists (fun c => c = []) cols -> fold_right Nat.min n (map length cols) = O.
Proof.
  induction 1 as [c cols Hc|c cols _ IH]; simpl.
  - by subst c.
  - rewrite IH. lia.
Qed.

Lemma min_length_tails {A} n (cols : list (list A)) :
  Forall (fun c => c <> []) cols ->
  fold_right Nat.min (S n) (map length cols)
  = S (fold_right Nat.min n (map length (map (@tl A) cols))).
Proof.
  induction 1 as [|c cols Hc _ IH]; [done|]. simpl. rewrite IH.
  destruct c as [|x c]; [done|]. simpl. lia.
Qed.

Lemma heads_tails_spec {A} (cols : list (list A)) :
  match heads_tails cols with
  | Some (hs, ts) =>
      Forall (fun c => c <> []) cols /\ length hs = length cols
      /\ ts = map (@tl A) cols
  | None => Exists (fun c => c = []) cols
  end.
Proof.
  induction cols as [|c cols IH]; [by split_and!|].
  destruct c as [|x c]; simpl; [by constructor|].
  destruct (heads_tails cols) as [[hs ts]|].
  - destruct IH as (F & L & ->). split_and!; [by constructor|simpl; by rewrite L|done].
  - by constructor.
Qed.

(** X7.  [zip] stops at its shortest argument: it yields as many rows as
    the shortest column has entries, and every row has one entry per
    column. *)
Theorem py_zip_shape {A} (first : list A) (others : list (list A)) :
  length (py_zip first others) = fold_right Nat.min (length first) (map length others)
  /\ Forall (fun row => length row = S (length others)) (py_zip first others).
Proof.
  revert others. induction first as [|x first IH]; intros others.
  - split; [|constructor]. simpl.
    induction others as [|c others IHo]; [done|]. simpl. rewrite <- IHo. lia.
  - cbn [py_zip length]. pose proof (heads_tails_spec others) as H.
    destruct (heads_tails others) as [[hs ts]|].
    + destruct H as (Hne & Lh & ->).
      destruct (IH (map (@tl A) others)) as [L F]. split.
      * cbn [length]. rewrite L. by rewrite min_length_tails.
      * constructor; [simpl; by rewrite Lh|]. by rewrite length_map in F.
    + rewrite (min_length_empty _ _ H). split; [done|constructor].
Qed.

Lemma keeps_file_get_events name : keeps_file name get_events.
Proof. by intros s. Qed.

Lemma keeps_file_time_sleep name d : keeps_file name (time_sleep d).
Proof. unfold time_sleep. by destruct (Qle_bool 0 d); intros s. Qed.

Lemma keeps_file_insert_marker name b c : keeps_file name (insert_marker b c).
Proof.
  unfold insert_marker. apply keeps_file_bind; [apply keeps_file_get_events|].
  intros tr. by destruct (insert_marker_raises b _ c); intros s.
Qed.

Lemma prefix_append (p x : string) : String.prefix p (p +:+ x) = true.
Proof.
  induction p as [|c p IH]; simpl; [by destruct x|].
  by destruct (ascii_dec c c).
Qed.

Section ExportFiles.
Context (env : Env) (eno : Enotools) (g : G.globals) (str_array : list Q -> string).
Context (w : ExperimentWindow.t).

Abbreviation b := (ExperimentWindow.board_shim w).
Abbreviation finished := (ExperimentWindow.experiment_finished env eno g str_array w).





(** X10.  Whatever its outcome, finalization changes no file but its two
    exports and the log file, to which it adds nothing but its three
    lines.  (The log that the driver keeps on its own is not the
    script's.) *)
Theorem finished_other_files s name :
  name <> ExperimentWindow.output_csv_filename w ->
  name <> ExperimentWindow.output_fif_filename w ->
  name <> log_filename ->
  name <> driver_log_filename ->
  read_file (snd (finished s)) name = read_file s name
  /\ exists tl, events (snd (finished s)) = events s ++ tl
                /\ Forall finalization_log tl.
Proof.
  intros Hcsv Hfif Hlog _. split.
  - unfold read_file. destruct (decide (name = log_filename)); [done|]. f_equal.
    revert s. change (keeps_file name finished).
    unfold ExperimentWindow.experiment_finished, logging_debug, logging_info,
      ExperimentWindow.vstack, ExperimentWindow.create_info, ExperimentWindow.RawArray.
    cbv zeta.
    repeat first
      [ apply keeps_file_ret | apply keeps_file_raise | apply keeps_file_emit
      | apply keeps_file_getitem | apply keeps_file_get_events
      | apply keeps_file_time_sleep | apply keeps_file_insert_marker
      | apply keeps_file_fromtimestamp
      | apply keeps_file_write_file; congruence
      | apply keeps_file_save; congruence
      | apply keeps_file_bind; [|intros ?]
      | apply keeps_file_map_M; intros ?
      | match goal with
        | |- keeps_file _ (if ?c then _ else _) => destruct c
        end ].
  - revert s. change (emits_only finalization_log finished).
    unfold ExperimentWindow.experiment_finished, logging_debug, logging_info,
      ExperimentWindow.vstack, ExperimentWindow.create_info, ExperimentWindow.RawArray.
    cbv zeta.
    footprint; try done; try (by left); try (right; apply prefix_append).
Qed.

(** X11.  When the driver refuses the end marker, finalization stops at
    once with [BrainFlowError]: nothing is read, logged or written. *)
Theorem finished_marker_refused s :
  insert_marker_raises b (markers_of (events s)) 6 = true ->
  finished s = (Raise BrainFlowError, s).
Proof.
  intros Hm. pose proof (experiment_finished_markers env eno g str_array w s) as H.
  cbv zeta in H. by rewrite Hm in H.
Qed.
End ExportFiles.

(** ** The session as a whole *)

Section WholeSession.
Context (env : Env) (eno : Enotools) (g : G.globals) (str_array : list Q -> string).
Context (w : ExperimentWindow.t).

Lemma run_experiment_state s0 r B :
  ExperimentWorker.run_body env g (ExperimentWindow.worker w) s0 = (r, add_events s0 B) ->
  let T := B ++ error_log r ++ [EvStatus "Experiment Complete" 5] in
  ExperimentWindow.run_experiment env eno g str_array w s0
  = ExperimentWindow.experiment_finished env eno g str_array w
      (add_events s0 (T ++ [EvFinished] ++ shown T)).
Proof.
  intros Hb T.
  assert (HF : Forall before_completion B).
  { destruct (run_body_before_completion env g (ExperimentWindow.worker w) s0)
      as (tr & E & F).
    rewrite Hb in E. simpl in E. apply app_inv_head in E. by subst. }
  unfold ExperimentWindow.run_experiment.
  rewrite bind_get_events, bind_eq, run_eq, Hb.
  assert (Hrun : (match r with
                  | Ok _ => (Ok tt, add_events (add_events s0 B)
                                      [EvStatus "Experiment Complete" 5; EvFinished])
                  | Raise e => (Ok tt, add_events (add_events s0 B)
                       [EvLog ERROR ("Error in experiment: " +:+ str_exn e);
                        EvStatus "Experiment Complete" 5; EvFinished])
                  end : result unit * state)
                 = (Ok tt, add_events s0 (T ++ [EvFinished]))).
  { unfold T. destruct r; rewrite add_events_add; simpl; by rewrite <- ?app_assoc. }
  rewrite Hrun, bind_get_events. cbn [events add_events].
  rewrite drop_app_length, for_each_app, bind_eq, deliver_statuses, for_each_one.
  - cbn [ExperimentWindow.deliver].
    change (mk_state (events s0 ++ T ++ [EvFinished]) (disk s0) (graph_mains s0))
      with (add_events s0 (T ++ [EvFinished])).
    by rewrite add_events_add, <- app_assoc.
  - unfold T. rewrite !Forall_app. split_and!.
    + eapply Forall_impl; [exact HF|]. by intros e [_ ?].
    + destruct r; repeat constructor.
    + repeat constructor.
Qed.

(** X12.  After every run, complete or aborted, finalization is called,
    exactly once and last: a session is one call of [experiment_finished]
    in the state the worker left.  In that state no export file has been
    written and no live-view attribute has changed; the log file has grown,
    by one line at least; and the markers written are an initial part of
    the protocol sequence. *)
Theorem session_finalizes_once s0 :
  exists tr,
    ExperimentWindow.run_experiment env eno g str_array w s0
    = ExperimentWindow.experiment_finished env eno g str_array w (add_events s0 tr)
    /\ count_if is_finished tr = 1%nat
    /\ markers_of tr `prefix_of` protocol_markers (Z.to_nat (G.num_songs g))
    /\ (forall name, name <> log_filename ->
                     read_file (add_events s0 tr) name = read_file s0 name)
    /\ (exists lines, lines <> []
                      /\ read_file (add_events s0 tr) log_filename
                         = Some (Log (log_lines (events s0) ++ lines))).
Proof.
  destruct (run_body_markers env g (ExperimentWindow.worker w) s0) as (B & E & P).
  cbv zeta in E.
  destruct (ExperimentWorker.run_body env g (ExperimentWindow.worker w) s0)
    as [r s'] eqn:Hb.
  simpl in E. subst s'.
  assert (HF : Forall before_completion B).
  { destruct (run_body_before_completion env g (ExperimentWindow.worker w) s0)
      as (tr & E & F).
    rewrite Hb in E. simpl in E. apply app_inv_head in E. by subst. }
  eexists. split; [exact (run_experiment_state s0 r B Hb)|]. split_and!.
  - rewrite !count_if_app.
    rewrite (count_if_none is_finished B).
    2:{ eapply Forall_impl; [exact HF|]. by intros e [_ ?]. }
    rewrite (count_if_none is_finished (shown _)).
    2:{ eapply Forall_impl; [apply shown_quiet|]. intros e He. by destruct e. }
    by destruct r.
  - rewrite !markers_of_app, (quiet_markers_of _ (shown_quiet _)).
    destruct r; simpl; by rewrite !app_nil_r.
  - intros name Hname. unfold read_file.
    by destruct (decide (name = log_filename)).
  - unfold read_file. destruct (decide (log_filename = log_filename)); [|done].
    cbn [events add_events]. rewrite log_lines_app. eexists. split; [|reflexivity].
    match goal with
    | |- log_lines (?a ++ ?c) <> [] =>
        rewrite (log_lines_app a c); intros H; apply app_eq_nil in H as [H _];
        revert H
    end.
    rewrite !log_lines_app. destruct r as [[]|ex].
    + apply run_body_inv in Hb as (Hs & _).
      apply (f_equal events) in Hs. cbn [events add_events] in Hs.
      apply app_inv_head in Hs. subst B. unfold prelude_trace. discriminate.
    + simpl. intros H. apply app_eq_nil in H as [_ H]. discriminate.
Qed.

(** X13.  A negative [sleep_time] is not rejected up front: the protocol
    aborts at its first wait with [ValueError], after marker 5 alone, and
    finalization, which waits too, fails the same way right after marker
    6, so that nothing is exported. *)
Theorem negative_sleep_time s0 :
  (G.sleep_time g < 0)%Q ->
  driver_accepts (ExperimentWindow.board_shim w) ->
  driver_accepts (ExperimentWorker.board_shim (ExperimentWindow.worker w)) ->
  let out := ExperimentWindow.run_experiment env eno g str_array w s0 in
  fst out = Raise (ValueError "sleep length must be non-negative")
  /\ markers_of (new_events s0 (snd out)) = [5; 6]
  /\ statuses_of (new_events s0 (snd out)) = [("Experiment Complete", 5)]
  /\ disk (snd out) = disk s0.
Proof.
  intros Hneg Hd Hdw.
  assert (Hst : Qle_bool 0 (G.sleep_time g) = false).
  { destruct (Qle_bool 0 (G.sleep_time g)) eqn:E; [|done].
    apply Qle_bool_iff in E. lra. }
  assert (Hb : ExperimentWorker.run_body env g (ExperimentWindow.worker w) s0
               = (Raise (ValueError "sleep length must be non-negative"),
                  add_events s0 [EvMarker 5;
                     EvLog DEBUG "Inserted marker 5 (Start of experiment)"])).
  { unfold ExperimentWorker.run_body, ExperimentWorker.update_message_emit, logging_debug.
    rewrite bind_marker_ok by apply Hdw.
    by rewrite bind_emit, (bind_sleep_fail _ _ _ Hst), add_events_add. }
  cbv zeta. rewrite (run_experiment_state s0 _ _ Hb).
  unfold ExperimentWindow.experiment_finished, logging_debug. cbv zeta.
  rewrite bind_marker_ok by apply Hd.
  rewrite bind_emit, (bind_sleep_fail _ _ _ Hst), !add_events_add.
  cbn [fst snd]. rewrite new_events_add. split_and!; reflexivity.
Qed.
End WholeSession.

(** ** The marker column *)

(** X14.  [astype(int)] gives back the integer that a float holds, so
    that the marker codes reach the CSV unchanged; on other values it
    truncates towards zero.  This holds of the values whose integer part
    fits 64 bits; the conversion of the others is left to the platform. *)
Theorem astype_int_spec env :
  (forall z, - 2 ^ 63 <= z < 2 ^ 63 -> astype_int env (inject_Z z) = z)
  /\ (forall x, (0 <= x)%Q -> (x < inject_Z (2 ^ 63))%Q ->
                (inject_Z (astype_int env x) <= x)%Q
                /\ (x < inject_Z (astype_int env x) + 1)%Q)
  /\ (forall x, (inject_Z (- 2 ^ 63) < x)%Q -> (x < inject_Z (2 ^ 63))%Q ->
                astype_int env (- x)%Q = - astype_int env x).
Proof.
  assert (Hpos : forall x, (0 <= x)%Q -> (x < inject_Z (2 ^ 63))%Q ->
                           0 <= trunc x < 2 ^ 63
                           /\ (inject_Z (trunc x) <= x)%Q
                           /\ (x < inject_Z (trunc x) + 1)%Q).
  { intros [n d] H0 H1. unfold trunc, Qle, Qlt in *. simpl in *.
    rewrite Z.quot_div_nonneg by lia.
    pose proof (Z.mul_div_le n (Z.pos d) ltac:(lia)).
    pose proof (Z.mul_succ_div_gt n (Z.pos d) ltac:(lia)).
    pose proof (Z.div_pos n (Z.pos d) ltac:(lia) ltac:(lia)).
    split_and!; nia. }
  assert (Hopp : forall x, trunc (- x)%Q = - trunc x).
  { intros [n d]. unfold trunc. simpl. apply Z.quot_opp_l. lia. }
  assert (Hrange : forall x, (inject_Z (- 2 ^ 63) < x)%Q -> (x < inject_Z (2 ^ 63))%Q ->
                             - 2 ^ 63 < trunc x < 2 ^ 63).
  { intros x Hl Hu. destruct (Qlt_le_dec x 0) as [Hneg|Hnn].
    - destruct (Hpos (- x)%Q) as [Hb _].
      + lra.
      + change (inject_Z (- 2 ^ 63)) with (- inject_Z (2 ^ 63))%Q in Hl. lra.
      + rewrite Hopp in Hb. lia.
    - destruct (Hpos x Hnn Hu) as [Hb _]. lia. }
  split_and!.
  - intros z Hz. rewrite astype_int_in_range; unfold trunc; simpl; rewrite Z.quot_1_r;
      [done|lia].
  - intros x H0 H1. destruct (Hpos x H0 H1) as (Hb & Hle & Hlt).
    rewrite astype_int_in_range by lia. by split.
  - intros x Hl Hu. pose proof (Hrange x Hl Hu) as Hb.
    rewrite !astype_int_in_range; rewrite ?Hopp; lia.
Qed.

(** ** The display of the live view *)

Section Display.
Context (env : Env) (eno : Enotools) (self : Graph.t).

Lemma show_channel_ok quality data count channel s :
  (count < length (Graph.plot_names self))%nat ->
  (count < length quality)%nat ->
  (channel < length (rows data))%nat ->
  Graph.show_channel env self quality data (count, channel) s
  = (Ok tt, add_events s (channel_display env self quality data (count, channel))).
Proof.
  intros Hn Hq Hc. unfold Graph.show_channel, channel_display.
  rewrite (bind_getitem_ok _ _ "") by done.
  rewrite (bind_getitem_ok _ _ 0%Q) by done.
  rewrite (bind_getitem_ok _ _ []) by done.
  rewrite !bind_emit. unfold legend_colour.
  destruct (Qle_bool 99 _); [|destruct (Qle_bool 95 _)];
    unfold emit, add_events; cbn [events disk graph_mains];
    rewrite <- ?app_assoc; reflexivity.
Qed.

Lemma display_loop_ok quality data chs k s :
  (k + length chs <= length (Graph.plot_names self))%nat ->
  (k + length chs <= length quality)%nat ->
  Forall (fun ch => (ch < length (rows data))%nat) chs ->
  for_each (combine (seq k (length chs)) chs) (Graph.show_channel env self quality data) s
  = (Ok tt, add_events s
              (concat (map (channel_display env self quality data)
                           (combine (seq k (length chs)) chs)))).
Proof.
  intros Hn Hq Hc. revert k s Hn Hq.
  induction Hc as [|ch chs Hch _ IH]; intros k s Hn Hq.
  - simpl. by rewrite add_events_nil.
  - cbn [length seq combine for_each map concat] in *.
    rewrite bind_eq, show_channel_ok by (done || lia).
    rewrite IH by lia. by rewrite add_events_add.
Qed.

(** X15.  A tick on a long enough snapshot, for a view whose channels have
    a plot name, a quality score and a row in the filtered buffer, raises
    nothing and, after the conditioning calls, draws every EEG channel
    once, in order: its samples, its label "name: score", and its legend in
    green for a score of 99 or more, yellow from 95, red below. *)
Theorem update_display s :
  enough self s = true ->
  (length (Graph.exg_channels self) <= length (Graph.plot_names self))%nat ->
  (length (Graph.exg_channels self) <= length (quality eno (pulled self s)))%nat ->
  Forall (fun ch => (ch < length (rows (displayed eno self s)))%nat)
         (Graph.exg_channels self) ->
  Graph.update env eno self s
  = (Ok tt,
     mk_state
       (events s ++ [EvGetCurrentBoardData (Graph.num_points self)]
        ++ conditioning_trace eno self s
        ++ concat (map (channel_display env self (quality eno (pulled self s))
                          (displayed eno self s))
                       (enumerate (Graph.exg_channels self))))
       (disk s) (Some (mains_after eno self s))).
Proof.
  unfold enough, displayed, enumerate. intros He Hn Hq Hc. unfold Graph.update.
  rewrite bind_get_events, bind_emit. fold (pulled self s) in *. rewrite He. cbv zeta.
  unfold conditioning_trace, mains_after in *.
  rewrite bind_get_mains. cbn [graph_mains add_events].
  destruct (graph_mains s) as [m|] eqn:Hm.
  - rewrite bind_ret, !bind_emit, bind_get_mains, bind_emit.
    cbn [graph_mains add_events]. rewrite Hm.
    unfold enumerate. rewrite (display_loop_ok _ _ _ O) by (done || lia).
    unfold add_events. cbn [events disk graph_mains]. rewrite Hm.
    rewrite <- !app_assoc. reflexivity.
  - rewrite bind_assoc, bind_emit, bind_set_mains, !bind_emit, bind_get_mains, bind_emit.
    cbn [graph_mains add_events events disk].
    unfold enumerate. rewrite (display_loop_ok _ _ _ O) by (done || lia).
    unfold add_events. cbn [events disk graph_mains].
    rewrite <- !app_assoc. reflexivity.
Qed.
End Display.

(** ** The widgets of the live view *)

Section Widgets.
Context (names : list string).

Lemma widgets_loop_ok m k ts :
  (k + m <= length names)%nat ->
  GraphWidgets.loop names (seq k m) ts
  = (Ok tt, GraphWidgets.mk (GraphWidgets.plots ts ++ seq k m)
              (GraphWidgets.curves ts ++ take m (drop k names))
              (GraphWidgets.legends ts ++ seq k m)).
Proof.
  revert k ts. induction m as [|m IH]; intros k ts H.
  - simpl. rewrite take_0, !app_nil_r. by destruct ts.
  - cbn [seq GraphWidgets.loop]. unfold GraphWidgets.add_row.
    destruct (lookup_lt_is_Some_2 names k ltac:(lia)) as [x Hx].
    rewrite Hx. cbv zeta. rewrite IH by lia. cbn [GraphWidgets.plots
      GraphWidgets.curves GraphWidgets.legends].
    rewrite (drop_S _ _ _ Hx). cbn [take]. by rewrite <- !app_assoc.
Qed.

Lemma widgets_loop_fail m k ts :
  (k <= length names < k + m)%nat ->
  GraphWidgets.loop names (seq k m) ts
  = (Raise IndexError,
     GraphWidgets.mk (GraphWidgets.plots ts ++ seq k (S (length names - k)))
       (GraphWidgets.curves ts ++ drop k names)
       (GraphWidgets.legends ts ++ seq k (length names - k))).
Proof.
  revert k ts. induction m as [|m IH]; intros k ts H; [lia|].
  cbn [seq GraphWidgets.loop]. unfold GraphWidgets.add_row.
  destruct (decide (k = length names)) as [->|Hk].
  - rewrite (lookup_ge_None_2 names (length names)) by lia. cbv zeta.
    rewrite Nat.sub_diag, drop_all. simpl. by rewrite !app_nil_r.
  - destruct (lookup_lt_is_Some_2 names k ltac:(lia)) as [x Hx].
    rewrite Hx. cbv zeta. rewrite IH by lia. cbn [GraphWidgets.plots
      GraphWidgets.curves GraphWidgets.legends].
    rewrite (drop_S _ _ _ Hx).
    replace (length names - k)%nat with (S (length names - S k)) by lia.
    cbn [seq]. by rewrite <- !app_assoc.
Qed.
End Widgets.

(** X16.  The live view has room for four channels.  On a board with at
    most four EEG channels [_init_timeseries] builds one plot, one curve and
    one legend per channel, the curves named after the first plot names; on
    a board with more it raises [IndexError] at the fifth, leaving five
    plots but four curves and four legends. *)
Theorem init_timeseries_spec b subj :
  let self := Graph.__init__ b subj in
  let n := length (get_eeg_channels b) in
  GraphWidgets._init_timeseries self
  = if decide (n <= 4)%nat
    then (Ok tt, GraphWidgets.mk (seq 0 n) (take n (Graph.plot_names self)) (seq 0 n))
    else (Raise IndexError,
          GraphWidgets.mk [0; 1; 2; 3; 4]%nat (Graph.plot_names self) [0; 1; 2; 3]%nat).
Proof.
  intros self n. unfold GraphWidgets._init_timeseries.
  change (length (Graph.exg_channels self)) with n.
  destruct (decide (n <= 4)%nat) as [H|H].
  - by rewrite widgets_loop_ok.
  - by rewrite widgets_loop_fail by (simpl; lia).
Qed.

(** ** The entry point *)

(** X17.  [main] attempts to release the acquisition session only when
    every call before it, up to and including [stop_stream], has raised
    nothing, and then once: a session prepared but followed by a failure is
    never released.  [main] returns normally exactly when no call raises at
    all. *)
Theorem main_release wd :
  let all_before_succeed :=
    Main.parse_args_exits wd = false
    /\ Main.board_shim_raises wd = None /\ Main.prepare_session_raises wd = None
    /\ Main.start_stream_raises wd = None /\ Main.graph_raises wd = None
    /\ Main.app_exec_raises wd = None /\ Main.stop_stream_raises wd = None in
  (Main.ReleaseSession ∈ fst (Main.main wd) <-> all_before_succeed)
  /\ (count_occ Main.call_eq_dec (fst (Main.main wd)) Main.ReleaseSession <= 1)%nat
  /\ (snd (Main.main wd) = Main.Return
      <-> all_before_succeed /\ Main.release_session_raises wd = None).
Proof.
  destruct wd as [pa bs ps ss gr ae st rs]. unfold Main.main, Main.try_block.
  cbn [Main.parse_args_exits Main.board_shim_raises Main.prepare_session_raises
       Main.start_stream_raises Main.graph_raises Main.app_exec_raises
       Main.stop_stream_raises Main.release_session_raises].
  assert (Hin : forall l : list Main.call,
            Main.ReleaseSession ∈ l <-> In Main.ReleaseSession l)
    by (intros l; apply list_elem_of_In).
  destruct pa.
  { rewrite Hin. simpl. intuition (congruence || lia). }
  destruct bs as [e|]; [destruct e; rewrite Hin; simpl; intuition (congruence || lia)|].
  destruct ps as [e|]; [destruct e; rewrite Hin; simpl; intuition (congruence || lia)|].
  destruct ss as [e|]; [destruct e; rewrite Hin; simpl; intuition (congruence || lia)|].
  destruct gr as [e|]; [destruct e; rewrite Hin; simpl; intuition (congruence || lia)|].
  destruct ae as [e|]; [destruct e; rewrite Hin; simpl; intuition (congruence || lia)|].
  destruct st as [e|]; [destruct e; rewrite Hin; simpl; intuition (congruence || lia)|].
  destruct rs as [e|]; [destruct e|]; rewrite Hin; simpl; intuition (congruence || lia).
Qed.

(** X18.  When the acquisition session cannot be established (the board
    object, [prepare_session] or [start_stream] raises [BrainFlowError]),
    [main] prints the error and exits with status 1: the calls it makes are
    the set-up of the logs, the parsing of the arguments, the calls up to
    the failing one, the print of the error and [sys.exit(1)].  The
    application and the live view are never created and the session is not
    released. *)
Theorem main_startup_failure wd :
  Main.parse_args_exits wd = false ->
  (Main.board_shim_raises wd = Some BrainFlowError
   \/ (Main.board_shim_raises wd = None
       /\ (Main.prepare_session_raises wd = Some BrainFlowError
           \/ (Main.prepare_session_raises wd = None
               /\ Main.start_stream_raises wd = Some BrainFlowError)))) ->
  snd (Main.main wd) = Main.Exit 1
  /\ (exists attempted,
         attempted `prefix_of` [Main.NewBoardShim; Main.PrepareSession; Main.StartStream]
         /\ attempted <> []
         /\ fst (Main.main wd)
            = [Main.SetUpLogging; Main.ParseArgs] ++ attempted
              ++ [Main.PrintError; Main.SysExit 1])
  /\ count_occ Main.call_eq_dec (fst (Main.main wd)) Main.PrintError = 1%nat
  /\ ~ In Main.NewQApplication (fst (Main.main wd))
  /\ ~ In Main.NewGraph (fst (Main.main wd))
  /\ ~ In Main.ReleaseSession (fst (Main.main wd)).
Proof.
  destruct wd as [pa bs ps ss gr ae st rs]. unfold Main.main, Main.try_block.
  cbn [Main.parse_args_exits Main.board_shim_raises Main.prepare_session_raises
       Main.start_stream_raises Main.graph_raises Main.app_exec_raises
       Main.stop_stream_raises Main.release_session_raises].
  intros -> [->|[-> [->|[-> ->]]]]; simpl; split_and!; try done;
    try (intuition congruence).
  - exists [Main.NewBoardShim]. split_and!; [|done|done].
    by exists [Main.PrepareSession; Main.StartStream].
  - exists [Main.NewBoardShim; Main.PrepareSession]. split_and!; [|done|done].
    by exists [Main.StartStream].
  - exists [Main.NewBoardShim; Main.PrepareSession; Main.StartStream].
    split_and!; [|done|done]. by exists [].
Qed.

(** X19.  Whether the drawing loop of a tick raises or not, the estimate is
    in place afterwards: a tick on a long enough snapshot leaves
    [Graph.mains] set, to the stored value if there was one and to the new
    estimate otherwise; a tick on a shorter snapshot leaves it as it was.
    No tick writes a file. *)
Theorem update_mains env eno self s :
  let s' := snd (Graph.update env eno self s) in
  graph_mains s'
  = (if enough self s then Some (mains_after eno self s) else graph_mains s)
  /\ disk s' = disk s.
Proof.
  cbv zeta. destruct (enough self s) eqn:He.
  - by destruct (update_long env eno self s He) as (tl & _ & _ & G & D).
  - by rewrite (update_short env eno self s He).
Qed.

(** ** The properties at concrete sessions *)

Lemma song_path_of_inj_witness :
  O <> 1%nat
  /\ ExperimentWorker.song_path_of Example.g 0 <> ExperimentWorker.song_path_of Example.g 1.
Proof.
  assert (H : O <> 1%nat) by discriminate.
  split; [exact H|]. exact (song_path_of_inj Example.g 0 1 H).
Defined.

Lemma run_statuses_witness :
  let self := ExperimentWindow.worker Example.window in
  fst (ExperimentWorker.run_body Example.env Example.g self Example.s0) = Ok tt
  /\ statuses_of (new_events Example.s0
                    (snd (ExperimentWorker.run Example.env Example.g self Example.s0)))
     = [("Relax with eyes closed", 1); ("Song 1", 2); ("Relax", 1);
        ("Song 2", 2); ("Relax", 1); ("Experiment Complete", 5)].
Proof.
  assert (H : fst (ExperimentWorker.run_body Example.env Example.g
                     (ExperimentWindow.worker Example.window) Example.s0) = Ok tt)
    by (vm_compute; reflexivity).
  split; [exact H|].
  exact (proj1 (run_statuses Example.env Example.g
                  (ExperimentWindow.worker Example.window) Example.s0 H)).
Defined.






Lemma finished_other_files_witness :
  ("notes.txt" <> ExperimentWindow.output_csv_filename Example.window
   /\ "notes.txt" <> ExperimentWindow.output_fif_filename Example.window
   /\ "notes.txt" <> log_filename
   /\ "notes.txt" <> driver_log_filename)
  /\ read_file (snd (ExperimentWindow.experiment_finished Example.env Example.eno
                       Example.g Example.str_array Example.window Example.s0))
       "notes.txt"
     = None.
Proof.
  assert (H1 : "notes.txt" <> ExperimentWindow.output_csv_filename Example.window)
    by (vm_compute; discriminate).
  assert (H2 : "notes.txt" <> ExperimentWindow.output_fif_filename Example.window)
    by (vm_compute; discriminate).
  assert (H3 : "notes.txt" <> log_filename) by (vm_compute; discriminate).
  assert (H4 : "notes.txt" <> driver_log_filename) by (vm_compute; discriminate).
  split; [by split_and!|].
  exact (proj1 (finished_other_files Example.env Example.eno Example.g
                  Example.str_array Example.window Example.s0 "notes.txt"
                  H1 H2 H3 H4)).
Defined.

Lemma finished_marker_refused_witness :
  insert_marker_raises ExampleMore.board_refusing_end
    (markers_of (events Example.s0)) 6 = true
  /\ ExperimentWindow.experiment_finished Example.env Example.eno Example.g
       Example.str_array ExampleMore.window_refusing_end Example.s0
     = (Raise BrainFlowError, Example.s0).
Proof.
  assert (H : insert_marker_raises ExampleMore.board_refusing_end
                (markers_of (events Example.s0)) 6 = true) by reflexivity.
  split; [exact H|].
  exact (finished_marker_refused Example.env Example.eno Example.g Example.str_array
           ExampleMore.window_refusing_end Example.s0 H).
Defined.

Lemma negative_sleep_time_witness :
  let out := ExperimentWindow.run_experiment Example.env Example.eno
               ExampleMore.g_negative Example.str_array ExampleMore.window_negative
               Example.s0 in
  (G.sleep_time ExampleMore.g_negative < 0)%Q
  /\ markers_of (new_events Example.s0 (snd out)) = [5; 6]
  /\ disk (snd out) = disk Example.s0.
Proof.
  assert (Hneg : (G.sleep_time ExampleMore.g_negative < 0)%Q) by reflexivity.
  assert (Hd : driver_accepts (ExperimentWindow.board_shim ExampleMore.window_negative))
    by (intros hist code; reflexivity).
  destruct (negative_sleep_time Example.env Example.eno ExampleMore.g_negative
              Example.str_array ExampleMore.window_negative Example.s0 Hneg Hd Hd)
    as (_ & Hm & _ & Hdisk).
  split; [exact Hneg|]. split; [exact Hm|exact Hdisk].
Defined.

Lemma astype_int_spec_witness :
  ((0 <= 7 # 2)%Q /\ (7 # 2 < inject_Z (2 ^ 63))%Q)
  /\ astype_int Example.env (7 # 2) = 3
  /\ (inject_Z (astype_int Example.env (7 # 2)) <= 7 # 2)%Q
  /\ (7 # 2 < inject_Z (astype_int Example.env (7 # 2)) + 1)%Q.
Proof.
  assert (H : (0 <= 7 # 2)%Q) by (vm_compute; discriminate).
  assert (H' : (7 # 2 < inject_Z (2 ^ 63))%Q) by (vm_compute; reflexivity).
  split; [by split|]. split; [reflexivity|].
  exact (proj1 (proj2 (astype_int_spec Example.env)) (7 # 2)%Q H H').
Defined.

Lemma update_display_witness :
  let self := Graph.__init__ (Example.board 751) "S01" in
  (enough self Example.s0 = true
   /\ (length (Graph.exg_channels self) <= length (Graph.plot_names self))%nat
   /\ (length (Graph.exg_channels self)
       <= length (quality Example.eno (pulled self Example.s0)))%nat
   /\ Forall (fun ch => (ch < length (rows (displayed Example.eno self Example.s0)))%nat)
        (Graph.exg_channels self))
  /\ fst (Graph.update Example.env Example.eno self Example.s0) = Ok tt.
Proof.
  intros self.
  assert (He : enough self Example.s0 = true) by (vm_compute; reflexivity).
  assert (Hn : (length (Graph.exg_channels self) <= length (Graph.plot_names self))%nat)
    by (vm_compute; lia).
  assert (Hq : (length (Graph.exg_channels self)
                <= length (quality Example.eno (pulled self Example.s0)))%nat)
    by (vm_compute; lia).
  assert (Hc : Forall (fun ch =>
                  (ch < length (rows (displayed Example.eno self Example.s0)))%nat)
                 (Graph.exg_channels self)).
  { vm_compute. repeat constructor; lia. }
  split; [by split_and!|].
  by rewrite (update_display Example.env Example.eno self Example.s0 He Hn Hq Hc).
Defined.

Lemma main_startup_failure_witness :
  Main.parse_args_exits ExampleMore.world_start_fails = false
  /\ snd (Main.main ExampleMore.world_start_fails) = Main.Exit 1
  /\ count_occ Main.call_eq_dec (fst (Main.main ExampleMore.world_start_fails))
       Main.PrintError = 1%nat
  /\ ~ In Main.ReleaseSession (fst (Main.main ExampleMore.world_start_fails)).
Proof.
  assert (H : Main.parse_args_exits ExampleMore.world_start_fails = false)
    by reflexivity.
  destruct (main_startup_failure ExampleMore.world_start_fails H
              (or_intror (conj eq_refl (or_intror (conj eq_refl eq_refl)))))
    as (Hexit & _ & Hprint & _ & _ & Hrel).
  split; [exact H|]. split; [exact Hexit|]. split; [exact Hprint|exact Hrel].
Defined.
